(** * Fashion creative workflow: a shallow embedding of the node functions,
      the routing function and the edge table of [src/agent/graph.ts], the
      state channels of [src/agent/state.ts] and the routes of
      [src/server.ts].

    Conventions of the embedding.
    - A JavaScript string is a [string]; every character is one code unit
      below 256.  The empty string is the only falsy string.
    - A property of a request object (a profile, a product, the options) is
      a value of its declared type or is missing: [None] is [undefined],
      and a product without its [colorways] array is a
      [Product.WithoutColorways].  A property that holds a JSON [null], or
      a value of another type, is not represented.
    - A state channel is nullable: there [None] is [null], the default of
      the channel.  In a body parsed from JSON, [None] is the value the
      definition that reads it names.
    - A promise is its settled result: [Fulfilled v] or [Rejected e].  A
      [throw] out of an [async] function is a rejection of its promise.
    - Remote providers and [process.env] are the environment [Env.t]: the
      functions are deterministic in it, and the theorems quantify over it.
    - The compiled graph is not embedded.  [src/agent/graph.ts] registers a
      node under the name of the channel [error] and declares its
      conditional edge on the name ["start"], which is neither a node nor
      the entry point, and [src/server.ts] imports a binding [graph] that
      the module does not export.  What [graph.invoke] returns is therefore
      a parameter of the two routes that call it, and the properties of
      the workflow are stated for the node functions, the reducers, the
      routing function and the edge table themselves.
    - Console logging and the [timestamp] property of the responses are left
      out; the [messages] channel, which no node and no caller populates, is
      left out as well. *)

From Stdlib Require Import ZArith NArith List String Ascii Bool Lia DecimalString.
From Stdlib Require DecimalPos DecimalN.
From stdpp Require Import base option gmap strings.
Import ListNotations.
Local Open Scope string_scope.

(** ** JavaScript primitives used by the sources *)

Module Js.

(** A thrown value: an [Error] instance with its [message], or anything
    else ([error instanceof Error] is false for it). *)
Inductive thrown : Type :=
| ErrorObject (message : string)
| OtherValue.

(** [error instanceof Error ? error.message : 'Unknown error'] *)
Definition message_or_unknown (e : thrown) : string :=
  match e with
  | ErrorObject m => m
  | OtherValue => "Unknown error"
  end.

(** The settled result of a promise. *)
Inductive outcome (A : Type) : Type :=
| Fulfilled (a : A)
| Rejected (e : thrown).
Arguments Fulfilled {A} a.
Arguments Rejected {A} e.

Definition bind {A B : Type} (m : outcome A) (k : A -> outcome B) : outcome B :=
  match m with
  | Fulfilled a => k a
  | Rejected e => Rejected e
  end.

(** [try { body } catch (error) { handler }] *)
Definition try_catch {A : Type} (body : outcome A) (handler : thrown -> outcome A)
  : outcome A :=
  match body with
  | Fulfilled a => Fulfilled a
  | Rejected e => handler e
  end.

(** Truthiness of a string. *)
Definition truthy (s : string) : bool := negb (String.eqb s "").

(** Truthiness of an optional string property. *)
Definition truthy_opt (v : option string) : bool :=
  match v with
  | Some s => truthy s
  | None => false
  end.

(** [v || d] for an optional string [v] and a string [d]. *)
Definition or_else (v : option string) (d : string) : string :=
  match v with
  | Some s => if truthy s then s else d
  | None => d
  end.

(** [String(n)] for a non-negative integer. *)
Definition number_to_string (n : N) : string :=
  NilZero.string_of_uint (N.to_uint n).

(** [arr.join(sep)] *)
Definition join (sep : string) (arr : list string) : string :=
  String.concat sep arr.

(** [s.split(sep)[0]] for a one-character separator: the part of [s]
    before the first occurrence of [sep], all of [s] when there is none. *)
Fixpoint split_first (sep : ascii) (s : string) : string :=
  match s with
  | EmptyString => EmptyString
  | String c rest =>
      if Ascii.eqb c sep then EmptyString else String c (split_first sep rest)
  end.

(** White space that [parseInt] skips (TAB, LF, VT, FF, CR, SP, NBSP). *)
Definition is_white_space (c : ascii) : bool :=
  let n := N_of_ascii c in
  ((9 <=? n) && (n <=? 13) || (n =? 32) || (n =? 160))%N.

Fixpoint trim_start (s : string) : string :=
  match s with
  | EmptyString => EmptyString
  | String c rest => if is_white_space c then trim_start rest else s
  end.

(** The value of [c] as a digit in base [radix], if it is one. *)
Definition digit_value (radix : Z) (c : ascii) : option Z :=
  let n := Z.of_N (N_of_ascii c) in
  let v :=
    if ((48 <=? n) && (n <=? 57))%Z then Some (n - 48)%Z
    else if ((97 <=? n) && (n <=? 122))%Z then Some (n - 87)%Z
    else if ((65 <=? n) && (n <=? 90))%Z then Some (n - 55)%Z
    else None in
  match v with
  | Some d => if (d <? radix)%Z then Some d else None
  | None => None
  end.

(** The longest prefix of digits, read in base [radix]; [acc] is [None]
    until the first digit has been read. *)
Fixpoint parse_digits (radix : Z) (s : string) (acc : option Z) : option Z :=
  match s with
  | EmptyString => acc
  | String c rest =>
      match digit_value radix c with
      | Some d => parse_digits radix rest (Some (radix * default 0%Z acc + d)%Z)
      | None => acc
      end
  end.

(** [parseInt(s)] without a radix argument; [None] is [NaN].  The result
    is the mathematical integer: it is only ever compared with [30], and
    rounding to a double does not move a value across [30]. *)
Definition parseInt (s : string) : option Z :=
  let s1 := trim_start s in
  let '(sign, s2) :=
    match s1 with
    | String "-"%char rest => ((-1)%Z, rest)
    | String "+"%char rest => (1%Z, rest)
    | _ => (1%Z, s1)
    end in
  let '(radix, s3) :=
    match s2 with
    | String "0"%char (String "x"%char rest) => (16%Z, rest)
    | String "0"%char (String "X"%char rest) => (16%Z, rest)
    | _ => (10%Z, s2)
    end in
  match parse_digits radix s3 None with
  | Some n => Some (sign * n)%Z
  | None => None
  end.

(** [x < k] for a number [x] that may be [NaN]. *)
Definition number_lt (x : option Z) (k : Z) : bool :=
  match x with
  | Some n => (n <? k)%Z
  | None => false
  end.

(** What a property read on an object literal can yield besides an own
    string property: a member inherited from [Object.prototype]. *)
Inductive value : Type :=
| Str (s : string)
| NativeFunction (name : string)
| ObjectPrototype.

(** Conversion to string in a template literal, as Node (V8) renders it. *)
Definition to_string (v : value) : string :=
  match v with
  | Str s => s
  | NativeFunction name => "function " ++ name ++ "() { [native code] }"
  | ObjectPrototype => "[object Object]"
  end.

Definition value_truthy (v : value) : bool :=
  match v with
  | Str s => truthy s
  | NativeFunction _ => true
  | ObjectPrototype => true
  end.

(** The members of [Object.prototype]. *)
Definition object_prototype : gmap string value :=
  list_to_map
    [ ("constructor", NativeFunction "Object");
      ("__defineGetter__", NativeFunction "__defineGetter__");
      ("__defineSetter__", NativeFunction "__defineSetter__");
      ("hasOwnProperty", NativeFunction "hasOwnProperty");
      ("__lookupGetter__", NativeFunction "__lookupGetter__");
      ("__lookupSetter__", NativeFunction "__lookupSetter__");
      ("isPrototypeOf", NativeFunction "isPrototypeOf");
      ("propertyIsEnumerable", NativeFunction "propertyIsEnumerable");
      ("toString", NativeFunction "toString");
      ("valueOf", NativeFunction "valueOf");
      ("__proto__", ObjectPrototype);
      ("toLocaleString", NativeFunction "toLocaleString") ].

(** [obj[key]] on an object literal whose own properties are [own]: the
    own property if there is one, else the inherited one. *)
Definition get (own : gmap string string) (key : string) : option value :=
  match own !! key with
  | Some s => Some (Str s)
  | None => object_prototype !! key
  end.

End Js.

#[global] Instance outcome_ret : MRet Js.outcome := @Js.Fulfilled.
#[global] Instance outcome_bind : MBind Js.outcome :=
  fun A B k m => Js.bind m k.

(** ** The data model of [src/agent/state.ts] *)

(** Customer data.  The interface declares the first eight properties; the
    persona rules and the prompt builder also read four demographic hints,
    which a request may or may not carry. *)
Module Profile.
Record t : Type := mk {
  contact_id : string;
  email : string;
  firstname : string;
  locale : string;
  country : string;
  city : string;
  tags : list string;
  interest_keywords : list string;
  age_range : option string;
  gender : option string;
  price_tier_demographics : option string;
  preferred_category : option string
}.
End Profile.

Module Product.
Inductive category : Type :=
| hoodies | sneakers | outerwear | denim | accessories
| dresses | tops | bottoms | handbag.
Inductive price_band : Type := value | mid | premium | luxury.
Inductive launch_type : Type := drop | evergreen | sale.
Record t : Type := mk {
  sku : string;
  title : string;
  category_of : category;
  colorways : list string;
  price_band_of : price_band;
  launch_type_of : launch_type;
  brand_name : string
}.
(** What the [product] channel holds at run time.  The route forwards the
    [product] of the request body as it came: an object with all the
    properties of the interface ([Complete]), or one that lacks the
    [colorways] array ([WithoutColorways], given by the two other
    properties the nodes read). *)
Inductive payload : Type :=
| Complete (product : t)
| WithoutColorways (product_title product_brand_name : string).
(** [product.title] *)
Definition title_of (p : payload) : string :=
  match p with
  | Complete product => title product
  | WithoutColorways product_title _ => product_title
  end.
(** [product.brand_name] *)
Definition brand_name_of (p : payload) : string :=
  match p with
  | Complete product => brand_name product
  | WithoutColorways _ product_brand_name => product_brand_name
  end.
End Product.

Inductive PersonaType : Type :=
| Streetwear | Minimalist | LuxuryClassic | Athleisure.

#[global] Instance PersonaType_eq_dec : EqDecision PersonaType.
Proof. solve_decision. Defined.

Module Options.
Inductive aspect : Type := aspect_1_1 | aspect_4_5 | aspect_9_16.
Inductive channel : Type :=
| instagram_feed | instagram_story | email | web_banner.
Inductive ab_variant : Type := A | B | C.
(** [copy_tone] is read by the copy step although the interface does not
    declare it. *)
Record t : Type := mk {
  aspect_of : aspect;
  channel_of : channel;
  fallback_image_url : string;
  ab_variant_of : ab_variant;
  copy_tone : option string
}.
End Options.

(** The generated creative.  [copy] is the string the nodes store in it;
    [color_palette] and [bfl_prompt] are declared but no node sets them. *)
Module CreativeContent.
Record t : Type := mk {
  image_url : option string;
  copy : string;
  persona : PersonaType;
  color_palette : option (list string);
  bfl_prompt : option string;
  polling_url : option string;
  request_id : option string
}.
(** [{ ...creative, copy: c }] *)
Definition with_copy (creative : t) (c : string) : t :=
  {| image_url := image_url creative;
     copy := c;
     persona := persona creative;
     color_palette := color_palette creative;
     bfl_prompt := bfl_prompt creative;
     polling_url := polling_url creative;
     request_id := request_id creative |}.
End CreativeContent.

Module ErrorState.
Record t : Type := mk {
  error : option string;
  retry_count : Z
}.
End ErrorState.

(** ** State channels and their reducers ([StateAnnotation]) *)

(** What an update says about one channel: nothing (the key is omitted), or
    a written value, which may be [null]. *)
Inductive write (A : Type) : Type :=
| Omitted
| Written (v : option A).
Arguments Omitted {A}.
Arguments Written {A} v.

(** [(left, right) => right ?? left] on a nullable channel ([left] and
    [right] are [l] and [r] here). *)
Definition reducer {A : Type} (l r : option A) : option A :=
  match r with
  | Some v => Some v
  | None => l
  end.

(** [(left, right) => right ?? left] on the [status] channel, whose value
    is a string. *)
Definition status_reducer (l : string) (r : option string) : string :=
  match r with
  | Some v => v
  | None => l
  end.

Definition apply_write {A : Type} (l : option A) (w : write A) : option A :=
  match w with
  | Omitted => l
  | Written r => reducer l r
  end.

Definition apply_status_write (l : string) (w : write string) : string :=
  match w with
  | Omitted => l
  | Written r => status_reducer l r
  end.

Module State.
Record t : Type := mk {
  profile : option Profile.t;
  product : option Product.payload;
  options : option Options.t;
  creative : option CreativeContent.t;
  persona : option PersonaType;
  error : option ErrorState.t;
  status : string
}.
(** The [default] of every channel. *)
Definition initial : t :=
  {| profile := None; product := None; options := None; creative := None;
     persona := None; error := None; status := "pending" |}.
End State.

Module Update.
Record t : Type := mk {
  profile : write Profile.t;
  product : write Product.payload;
  options : write Options.t;
  creative : write CreativeContent.t;
  persona : write PersonaType;
  error : write ErrorState.t;
  status : write string
}.
(** [{}] *)
Definition empty : t :=
  {| profile := Omitted; product := Omitted; options := Omitted;
     creative := Omitted; persona := Omitted; error := Omitted;
     status := Omitted |}.
(** [{ error: { error: msg, retry_count: 0 } }] *)
Definition of_error (msg : string) : t :=
  {| profile := Omitted; product := Omitted; options := Omitted;
     creative := Omitted; persona := Omitted;
     error := Written (Some {| ErrorState.error := Some msg;
                               ErrorState.retry_count := 0 |});
     status := Omitted |}.
(** [{ persona }] *)
Definition of_persona (p : PersonaType) : t :=
  {| profile := Omitted; product := Omitted; options := Omitted;
     creative := Omitted; persona := Written (Some p); error := Omitted;
     status := Omitted |}.
(** [{ creative }] *)
Definition of_creative (c : CreativeContent.t) : t :=
  {| profile := Omitted; product := Omitted; options := Omitted;
     creative := Written (Some c); persona := Omitted; error := Omitted;
     status := Omitted |}.
(** A whole state returned as an update: every channel is written. *)
Definition of_state (s : State.t) : t :=
  {| profile := Written (State.profile s);
     product := Written (State.product s);
     options := Written (State.options s);
     creative := Written (State.creative s);
     persona := Written (State.persona s);
     error := Written (State.error s);
     status := Written (Some (State.status s)) |}.
End Update.

(** The orchestrator merges an update channel by channel. *)
Definition merge (s : State.t) (u : Update.t) : State.t :=
  {| State.profile := apply_write (State.profile s) (Update.profile u);
     State.product := apply_write (State.product s) (Update.product u);
     State.options := apply_write (State.options s) (Update.options u);
     State.creative := apply_write (State.creative s) (Update.creative u);
     State.persona := apply_write (State.persona s) (Update.persona u);
     State.error := apply_write (State.error s) (Update.error u);
     State.status := apply_status_write (State.status s) (Update.status u) |}.

(** ** The environment: HTTP providers and [process.env] *)

Module Http.
(** What [fetch] resolves to; [text] and [json] are the results of reading
    the body as text and as JSON. *)
Record response (B : Type) : Type := mk {
  status : N;
  statusText : string;
  text : Js.outcome string;
  json : Js.outcome B
}.
Arguments mk {B} _ _ _ _.
Arguments status {B} _.
Arguments statusText {B} _.
Arguments text {B} _.
Arguments json {B} _.
(** [response.ok]: the status is in the range 200-299. *)
Definition ok {B : Type} (r : response B) : bool :=
  ((200 <=? status r) && (status r <=? 299))%N.
End Http.

(** The image provider's submit endpoint. *)
Module Bfl.
Record request : Type := mk_request {
  x_key : string;
  prompt : string;
  width : N;
  height : N
}.
(** The parsed body; a JSON [null] body is [None] at the use sites. *)
Record result : Type := mk_result {
  polling_url : option string;
  request_id : option string
}.
End Bfl.

(** The chat-completion provider. *)
Module OpenAI.
(** The parts of the request that vary: the bearer token and what the user
    message embeds. *)
Record request : Type := mk_request {
  bearer : string;
  product_title : string;
  product_brand : string;
  persona : PersonaType;
  profile : Profile.t;
  tone : string
}.
Record message : Type := mk_message { content : option string }.
Record choice : Type := mk_choice { message_of : option message }.
(** [choices] is [None] when the body has no such property; an element of
    the array may be [null]. *)
Record result : Type := mk_result {
  choices : option (list (option choice))
}.
End OpenAI.

(** The image provider's result endpoint. *)
Module Poll.
Record data : Type := mk_data {
  status : option string;
  result : option string;
  error : option string
}.
End Poll.

Module Env.
Record t : Type := mk {
  BFL_API_KEY : option string;
  OPENAI_API_KEY : option string;
  fetch_bfl : Bfl.request -> Js.outcome (Http.response (option Bfl.result));
  fetch_openai :
    OpenAI.request -> Js.outcome (Http.response (option OpenAI.result));
  (** [fetch(pollingUrl, { headers: { 'x-key': key } })] *)
  fetch_poll :
    string -> string -> Js.outcome (Http.response (option Poll.data))
}.
End Env.

(** ** The nodes of [src/agent/graph.ts] *)

Definition missing_persona_data : string :=
  "Missing required data for persona inference".
Definition missing_image_data : string :=
  "Missing required data for image generation".
Definition missing_copy_data : string :=
  "Missing required data for copy generation".

(** [inferPersona].  Reading [.split] on a missing [age_range]
    ([undefined]) throws a [TypeError], which nothing in the node
    catches. *)
Definition inferPersona (state : State.t) : Js.outcome Update.t :=
  match State.profile state, State.product state with
  | Some profile, Some _ =>
      if decide (Profile.age_range profile = Some "18-25"
                 /\ Profile.gender profile = Some "Male") then
        Js.Fulfilled (Update.of_persona Streetwear)
      else if decide (Profile.age_range profile = Some "26-35"
                      /\ Profile.gender profile = Some "Female") then
        Js.Fulfilled (Update.of_persona Minimalist)
      else if decide (Profile.age_range profile = Some "36-45"
                      /\ Profile.price_tier_demographics profile = Some "Premium") then
        Js.Fulfilled (Update.of_persona LuxuryClassic)
      else if decide (Profile.age_range profile = Some "18-35"
                      /\ Profile.preferred_category profile = Some "Athleisure") then
        Js.Fulfilled (Update.of_persona Athleisure)
      else
        match Profile.age_range profile with
        | Some age_range =>
            Js.Fulfilled
              (Update.of_persona
                 (if Js.number_lt (Js.parseInt (Js.split_first "-" age_range)) 30
                  then Streetwear else Minimalist))
        | None =>
            Js.Rejected
              (Js.ErrorObject "Cannot read properties of undefined (reading 'split')")
        end
  | _, _ => Js.Fulfilled (Update.of_error missing_persona_data)
  end.

(** The own properties of the [categoryPrompts] object literal. *)
Definition categoryPrompts (product : Product.t) : gmap string string :=
  let subject := Product.title product ++ " by " ++ Product.brand_name product in
  list_to_map
    [ ("fashion", "Fashion product photography of " ++ subject);
      ("lifestyle", "Lifestyle product photography of " ++ subject);
      ("beauty", "Beauty product photography of " ++ subject);
      ("travel", "Travel lifestyle photography featuring " ++ subject);
      ("food", "Food and dining photography featuring " ++ subject);
      ("tech", "Tech product photography of " ++ subject) ].

(** [categoryPrompts.fashion] *)
Definition fashionPrompt (product : Product.t) : string :=
  "Fashion product photography of "
  ++ Product.title product ++ " by " ++ Product.brand_name product.

Definition personaPrompts (persona : PersonaType) : string :=
  match persona with
  | Streetwear =>
      "urban street style, graffiti background, neon lighting, chunky sneakers, oversized fit, edgy aesthetic"
  | Minimalist =>
      "clean minimal studio, soft natural lighting, neutral colors, editorial style, beige background"
  | LuxuryClassic =>
      "luxury studio setup, elegant marble background, softbox lighting, silk textures, gold accents"
  | Athleisure =>
      "athletic lifestyle, gym or outdoor setting, dynamic lighting, sporty aesthetic, active lifestyle"
  end.

Definition qualitySuffix : string :=
  "high quality, professional photography, 4K resolution".

(** [createBFLPrompt] *)
Definition createBFLPrompt (persona : PersonaType) (product : Product.t)
    (profile : option Profile.t) : string :=
  let category := Js.or_else (profile ≫= Profile.preferred_category) "fashion" in
  let basePrompt :=
    match Js.get (categoryPrompts product) category with
    | Some v => if Js.value_truthy v then v else Js.Str (fashionPrompt product)
    | None => Js.Str (fashionPrompt product)
    end in
  let colorPalette := Js.join ", " (Product.colorways product) in
  Js.to_string basePrompt ++ ", " ++ personaPrompts persona
  ++ ", colors: " ++ colorPalette ++ ", " ++ qualitySuffix.

Definition placeholderImage : string :=
  "https://via.placeholder.com/1024x1024/cccccc/666666?text=Image+Generating...".

(** The request [generateImage] submits. *)
Definition imageRequest (bflApiKey bflPrompt : string) : Bfl.request :=
  {| Bfl.x_key := bflApiKey; Bfl.prompt := bflPrompt;
     Bfl.width := 1024; Bfl.height := 1024 |}.

(** [generateImage].  The check of the API key and the call of
    [createBFLPrompt] stand before the [try] block, so what they throw
    leaves the node: the [Error] of the check, and the [TypeError] of
    [product.colorways.join] for a product without [colorways]. *)
Definition generateImage (env : Env.t) (state : State.t) : Js.outcome Update.t :=
  match State.profile state, State.product state,
        State.options state, State.persona state with
  | Some profile, Some product, Some _, Some persona =>
      match Env.BFL_API_KEY env with
      | Some bflApiKey =>
          if Js.truthy bflApiKey then
            match product with
            | Product.WithoutColorways _ _ =>
                Js.Rejected
                  (Js.ErrorObject
                     "Cannot read properties of undefined (reading 'join')")
            | Product.Complete product =>
                let bflPrompt := createBFLPrompt persona product (Some profile) in
                Js.try_catch
                  (response ← Env.fetch_bfl env (imageRequest bflApiKey bflPrompt);
                   if negb (Http.ok response) then
                     errorText ← Http.text response;
                     Js.Rejected
                       (Js.ErrorObject
                          ("BFL API error: "
                           ++ Js.number_to_string (Http.status response) ++ " "
                           ++ Http.statusText response ++ " - " ++ errorText))
                   else
                     result ← Http.json response;
                     match result with
                     | Some result =>
                         Js.Fulfilled
                           (Update.of_creative
                              {| CreativeContent.image_url :=
                                   Some (Js.or_else (Bfl.polling_url result)
                                           placeholderImage);
                                 CreativeContent.copy := "";
                                 CreativeContent.persona := persona;
                                 CreativeContent.color_palette := None;
                                 CreativeContent.bfl_prompt := None;
                                 CreativeContent.polling_url := Bfl.polling_url result;
                                 CreativeContent.request_id := Bfl.request_id result |})
                     | None =>
                         Js.Rejected
                           (Js.ErrorObject
                              "Cannot read properties of null (reading 'polling_url')")
                     end)
                  (fun error =>
                     Js.Fulfilled
                       (Update.of_error
                          ("Image generation failed: " ++ Js.message_or_unknown error)))
            end
          else
            Js.Rejected
              (Js.ErrorObject "BFL_API_KEY environment variable is required")
      | None =>
          Js.Rejected
            (Js.ErrorObject "BFL_API_KEY environment variable is required")
      end
  | _, _, _, _ => Js.Fulfilled (Update.of_error missing_image_data)
  end.

Definition defaultCopy : string := "Discover the perfect style for you.".

(** [result.choices[0]?.message?.content] once [result.choices] is known
    to be an array. *)
Definition firstChoiceContent (choices : list (option OpenAI.choice))
    : option string :=
  match choices with
  | Some choice :: _ =>
      match OpenAI.message_of choice with
      | Some message => OpenAI.content message
      | None => None
      end
  | _ => None
  end.

(** The request [generateCopy] sends. *)
Definition copyRequest (openaiApiKey : string) (state : State.t)
    (profile : Profile.t) (product : Product.payload) (persona : PersonaType)
    : OpenAI.request :=
  {| OpenAI.bearer := openaiApiKey;
     OpenAI.product_title := Product.title_of product;
     OpenAI.product_brand := Product.brand_name_of product;
     OpenAI.persona := persona;
     OpenAI.profile := profile;
     OpenAI.tone :=
       Js.or_else (State.options state ≫= Options.copy_tone) "professional" |}.

(** [generateCopy] *)
Definition generateCopy (env : Env.t) (state : State.t) : Js.outcome Update.t :=
  match State.profile state, State.product state,
        State.persona state, State.creative state with
  | Some profile, Some product, Some persona, Some creative =>
      match Env.OPENAI_API_KEY env with
      | Some openaiApiKey =>
          if Js.truthy openaiApiKey then
            Js.try_catch
              (response ←
                 Env.fetch_openai env
                   (copyRequest openaiApiKey state profile product persona);
               if negb (Http.ok response) then
                 errorText ← Http.text response;
                 Js.Rejected
                   (Js.ErrorObject
                      ("OpenAI API error: "
                       ++ Js.number_to_string (Http.status response) ++ " "
                       ++ Http.statusText response ++ " - " ++ errorText))
               else
                 result ← Http.json response;
                 match result with
                 | Some result =>
                     match OpenAI.choices result with
                     | Some choices =>
                         let copy :=
                           Js.or_else (firstChoiceContent choices) defaultCopy in
                         Js.Fulfilled
                           (Update.of_creative
                              (CreativeContent.with_copy creative copy))
                     | None =>
                         Js.Rejected
                           (Js.ErrorObject
                              "Cannot read properties of undefined (reading '0')")
                     end
                 | None =>
                     Js.Rejected
                       (Js.ErrorObject
                          "Cannot read properties of null (reading 'choices')")
                 end)
              (fun error =>
                 Js.Fulfilled
                   (Update.of_error
                      ("Copy generation failed: " ++ Js.message_or_unknown error)))
          else
            Js.Rejected
              (Js.ErrorObject "OPENAI_API_KEY environment variable is required")
      | None =>
          Js.Rejected
            (Js.ErrorObject "OPENAI_API_KEY environment variable is required")
      end
  | _, _, _, _ => Js.Fulfilled (Update.of_error missing_copy_data)
  end.

(** ** The nodes, the routing function and the edges of the workflow *)

Inductive node : Type :=
| n_inferPersona | n_generateImage | n_generateCopy | n_error | n_end.

#[global] Instance node_eq_dec : EqDecision node.
Proof. solve_decision. Defined.

(** [route]: the routing function handed to [addConditionalEdges]; it
    names the node a state is to be sent to. *)
Definition route (state : State.t) : node :=
  match State.error state with
  | Some _ => n_error
  | None =>
      match State.persona state with
      | None => n_inferPersona
      | Some _ =>
          match State.creative state with
          | None => n_generateImage
          | Some creative =>
              if Js.truthy (CreativeContent.copy creative) then n_end
              else n_generateCopy
          end
      end
  end.

(** The function each [addNode] registers. *)
Definition run_node (env : Env.t) (n : node) (state : State.t)
    : Js.outcome Update.t :=
  match n with
  | n_inferPersona => inferPersona state
  | n_generateImage => generateImage env state
  | n_generateCopy => generateCopy env state
  | n_error =>
      Js.Fulfilled
        {| Update.profile := Omitted; Update.product := Omitted;
           Update.options := Omitted; Update.creative := Omitted;
           Update.persona := Omitted;
           Update.error := Written (State.error state);
           Update.status := Omitted |}
  | n_end => Js.Fulfilled (Update.of_state state)
  end.

(** The [addEdge] declarations; [None] is [END]. *)
Definition edge (n : node) : option node :=
  match n with
  | n_inferPersona => Some n_generateImage
  | n_generateImage => Some n_generateCopy
  | n_generateCopy => Some n_end
  | n_error => None
  | n_end => None
  end.

(** The input both callers in [src/server.ts] build:
    [{ profile, product, options }]. *)
Definition workflowInput (profile : option Profile.t)
    (product : option Product.payload) (options : option Options.t)
    : Update.t :=
  {| Update.profile := Written profile;
     Update.product := Written product;
     Update.options := Written options;
     Update.creative := Omitted; Update.persona := Omitted;
     Update.error := Omitted; Update.status := Omitted |}.

(** ** The routes of [src/server.ts] *)

Module Server.

(** *** [GET /api/poll-image/:requestId] *)

Definition builtinKey : string := "c437e6fb-d7e2-4953-b238-44fe1656ca02".

Definition endpoints (requestId : string) : list string :=
  [ "https://api.eu2.bfl.ai/v1/get_result?id=" ++ requestId;
    "https://api.eu4.bfl.ai/v1/get_result?id=" ++ requestId;
    "https://api.us1.bfl.ai/v1/get_result?id=" ++ requestId ].

(** The variables of the polling loop, and the URLs fetched so far. *)
Record poll_vars : Type := mk_poll_vars {
  response : option (Http.response (option Poll.data));
  lastError : option Js.thrown;
  contacted : list string
}.

(** [for (const pollingUrl of endpoints) { try ... catch ... }] *)
Fixpoint poll_loop
    (fetch : string -> Js.outcome (Http.response (option Poll.data)))
    (urls : list string) (vars : poll_vars) : poll_vars :=
  match urls with
  | [] => vars
  | pollingUrl :: rest =>
      match fetch pollingUrl with
      | Js.Fulfilled r =>
          let vars' :=
            {| response := Some r;
               lastError := lastError vars;
               contacted := (contacted vars ++ [pollingUrl])%list |} in
          if Http.ok r then vars' else poll_loop fetch rest vars'
      | Js.Rejected e =>
          poll_loop fetch rest
            {| response := response vars;
               lastError := Some e;
               contacted := (contacted vars ++ [pollingUrl])%list |}
      end
  end.

(** The JSON body and status code of the route's answer. *)
Record poll_reply : Type := mk_poll_reply {
  poll_code : N;
  poll_status : option string;
  poll_result : option string;
  poll_error : option string
}.

Definition lastErrorMessage (lastError : option Js.thrown) : string :=
  match lastError with
  | Some e => Js.message_or_unknown e
  | None => "Unknown error"
  end.

Definition allEndpointsFailed (lastError : option Js.thrown) : poll_reply :=
  {| poll_code := 500;
     poll_status := Some "error";
     poll_result := None;
     poll_error :=
       Some ("All polling endpoints failed. Last error: "
             ++ lastErrorMessage lastError) |}.

Definition pollFailed (e : Js.thrown) : poll_reply :=
  {| poll_code := 500;
     poll_status := Some "error";
     poll_result := None;
     poll_error := Some (Js.message_or_unknown e) |}.

(** The [fetch] of the loop: the key is
    [process.env.BFL_API_KEY || builtinKey]. *)
Definition pollFetch (env : Env.t) (pollingUrl : string)
    : Js.outcome (Http.response (option Poll.data)) :=
  Env.fetch_poll env pollingUrl (Js.or_else (Env.BFL_API_KEY env) builtinKey).

(** The handler; it returns the final loop variables with the reply. *)
Definition pollImage (env : Env.t) (requestId : string)
    : poll_vars * poll_reply :=
  let vars :=
    poll_loop (pollFetch env) (endpoints requestId)
      {| response := None; lastError := None; contacted := [] |} in
  let reply :=
    match response vars with
    | Some r =>
        if Http.ok r then
          match Http.json r with
          | Js.Fulfilled (Some data) =>
              {| poll_code := 200;
                 poll_status := Poll.status data;
                 poll_result := Poll.result data;
                 poll_error := Poll.error data |}
          | Js.Fulfilled None =>
              pollFailed
                (Js.ErrorObject
                   "Cannot read properties of null (reading 'status')")
          | Js.Rejected e => pollFailed e
          end
        else allEndpointsFailed (lastError vars)
    | None => allEndpointsFailed (lastError vars)
    end in
  (vars, reply).

(** *** [POST /api/generate-creative] *)

(** The [options] object of a request body: any subset of the properties. *)
Record options_patch : Type := mk_options_patch {
  patch_aspect : option Options.aspect;
  patch_channel : option Options.channel;
  patch_fallback_image_url : option string;
  patch_ab_variant : option Options.ab_variant;
  patch_copy_tone : option string
}.

(** The body of a request: [None] is a missing or falsy [profile] or
    [product]. *)
Record body : Type := mk_body {
  body_profile : option Profile.t;
  body_product : option Product.payload;
  body_options : option options_patch
}.

Definition backupImage : string :=
  "https://dummyimage.com/1080x1080/111827/f5f5f5.png&text=Backup".

(** [{ aspect: '1:1', ..., ab_variant: 'A', ...options }] *)
Definition defaultOptions (options : option options_patch) : Options.t :=
  {| Options.aspect_of :=
       default Options.aspect_1_1 (options ≫= patch_aspect);
     Options.channel_of :=
       default Options.instagram_feed (options ≫= patch_channel);
     Options.fallback_image_url :=
       default backupImage (options ≫= patch_fallback_image_url);
     Options.ab_variant_of :=
       default Options.A (options ≫= patch_ab_variant);
     Options.copy_tone := options ≫= patch_copy_tone |}.

Record reply : Type := mk_reply {
  code : N;
  success : option bool;
  creative : option CreativeContent.t;
  persona : option PersonaType;
  status : option string;
  warning : option string;
  error : option string
}.

Definition errorReply (c : N) (msg : string) (st : option string) : reply :=
  {| code := c; success := None; creative := None; persona := None;
     status := st; warning := None; error := Some msg |}.

(** What the handler answers once [graph.invoke] has settled with
    [result]: the two branches on [result.error?.error], and the [catch]
    block for a rejection. *)
Definition answer (result : Js.outcome State.t) : reply :=
  match result with
  | Js.Fulfilled result =>
      match State.error result ≫= ErrorState.error with
      | Some message =>
          if Js.truthy message then
            if Js.truthy_opt
                 (State.creative result ≫= CreativeContent.image_url) then
              {| code := 200;
                 success := Some true;
                 creative := State.creative result;
                 persona := State.persona result;
                 status :=
                   Some (Js.or_else (Some (State.status result)) "fallback");
                 warning := Some message;
                 error := None |}
            else errorReply 500 message (Some "error")
          else
            {| code := 200; success := Some true;
               creative := State.creative result;
               persona := State.persona result;
               status := Some (State.status result);
               warning := None; error := None |}
      | None =>
          {| code := 200; success := Some true;
             creative := State.creative result;
             persona := State.persona result;
             status := Some (State.status result);
             warning := None; error := None |}
      end
  | Js.Rejected e =>
      errorReply 500
        match e with
        | Js.ErrorObject m => m
        | Js.OtherValue => "Unknown error occurred"
        end
        (Some "error")
  end.

(** The handler.  [graph] is what [graph.invoke] returns for an input: the
    route imports the binding from the agent module, which does not
    export it. *)
Definition generateCreative (graph : Update.t -> Js.outcome State.t)
    (req : body) : reply :=
  match body_profile req, body_product req with
  | Some profile, Some product =>
      let options := defaultOptions (body_options req) in
      answer (graph (workflowInput (Some profile) (Some product) (Some options)))
  | _, _ =>
      errorReply 400
        "Missing required fields: profile and product are required" None
  end.

End Server.

(** *** [POST /api/process-csv] *)

Module Csv.

(** [s.split(sep)] for a one-character separator. *)
Fixpoint split (sep : ascii) (s : string) : list string :=
  match s with
  | EmptyString => [EmptyString]
  | String c rest =>
      if Ascii.eqb c sep then EmptyString :: split sep rest
      else
        match split sep rest with
        | first :: others => String c first :: others
        | [] => [String c EmptyString]
        end
  end.

(** [s.trimEnd()] *)
Fixpoint trim_end (s : string) : string :=
  match s with
  | EmptyString => EmptyString
  | String c rest =>
      match trim_end rest with
      | EmptyString =>
          if Js.is_white_space c then EmptyString else String c EmptyString
      | String c' rest' => String c (String c' rest')
      end
  end.

(** [s.trim()] *)
Definition trim (s : string) : string := trim_end (Js.trim_start s).

(** [splitString]: a cell of the sheet is [undefined] ([None]) or a
    string. *)
Definition splitString (str : option string) : list string :=
  match str with
  | Some s =>
      if Js.truthy s then
        filter (fun item => (0 <? String.length item)%nat)
          (map trim (split ";" s))
      else []
  | None => []
  end.

(** A parsed row of the sheet: the columns the route reads. *)
Record row : Type := mk_row {
  contact_id : option string;
  email : option string;
  firstname : option string;
  locale : option string;
  country : option string;
  city : option string;
  tags : option string;
  interest_keywords : option string
}.

(** The uploaded file: what parsing it yields and what deleting it does. *)
Record upload : Type := mk_upload {
  parse : Js.outcome (list row);
  unlink : Js.outcome unit
}.

(** The profile built from row [i]; [now] is the value of [Date.now()]. *)
Definition rowProfile (now : N) (i : nat) (r : row) : Profile.t :=
  {| Profile.contact_id :=
       Js.or_else (contact_id r)
         ("FASH-" ++ Js.number_to_string now ++ "-"
          ++ Js.number_to_string (N.of_nat i));
     Profile.email := Js.or_else (email r) "demo@example.com";
     Profile.firstname := Js.or_else (firstname r) "Demo";
     Profile.locale := Js.or_else (locale r) "en-US";
     Profile.country := Js.or_else (country r) "US";
     Profile.city := Js.or_else (city r) "New York";
     Profile.tags := splitString (tags r);
     Profile.interest_keywords := splitString (interest_keywords r);
     Profile.age_range := None;
     Profile.gender := None;
     Profile.price_tier_demographics := None;
     Profile.preferred_category := None |}.

Definition demoProduct : Product.t :=
  {| Product.sku := "SKU-DEMO-001";
     Product.title := "Premium Fashion Item";
     Product.category_of := Product.hoodies;
     Product.colorways := ["#000000"; "#F5F5F5"; "#FF6B6B"];
     Product.price_band_of := Product.mid;
     Product.launch_type_of := Product.drop;
     Product.brand_name := "Demo Brand" |}.

Definition demoOptions : Options.t :=
  {| Options.aspect_of := Options.aspect_1_1;
     Options.channel_of := Options.instagram_feed;
     Options.fallback_image_url := Server.backupImage;
     Options.ab_variant_of := Options.A;
     Options.copy_tone := None |}.

Record result_entry : Type := mk_result_entry {
  result_row : N;
  result_contact_id : string;
  result_creative : option CreativeContent.t;
  result_persona : option PersonaType;
  result_status : string
}.

Record error_entry : Type := mk_error_entry {
  error_row : N;
  error_contact_id : string;
  error_message : string
}.

(** The body of the loop for row [i]: the arrays after the iteration.
    [graph] is what [graph.invoke] returns for an input. *)
Definition processRow (graph : Update.t -> Js.outcome State.t) (now : N)
    (i : nat) (r : row)
    (results : list result_entry) (errors : list error_entry)
    : list result_entry * list error_entry :=
  let profile := rowProfile now i r in
  match graph
          (workflowInput (Some profile) (Some (Product.Complete demoProduct))
             (Some demoOptions)) with
  | Js.Fulfilled result =>
      if Js.truthy_opt (State.error result ≫= ErrorState.error) then
        (results,
         (errors ++
          [{| error_row := N.of_nat i + 1;
              error_contact_id := Profile.contact_id profile;
              error_message :=
                default "" (State.error result ≫= ErrorState.error) |}])%list)
      else
        ((results ++
          [{| result_row := N.of_nat i + 1;
              result_contact_id := Profile.contact_id profile;
              result_creative := State.creative result;
              result_persona := State.persona result;
              result_status := State.status result |}])%list,
         errors)
  | Js.Rejected e =>
      (results,
       (errors ++
        [{| error_row := N.of_nat i + 1;
            error_contact_id :=
              Js.or_else (contact_id r)
                ("ROW-" ++ Js.number_to_string (N.of_nat i + 1));
            error_message := Js.message_or_unknown e |}])%list)
  end.

(** [for (let i = 0; i < csvData.length; i++)], from index [i] on;
    [clock i] is what [Date.now()] returns in iteration [i]. *)
Fixpoint processRows (graph : Update.t -> Js.outcome State.t)
    (clock : nat -> N) (i : nat)
    (rows : list row) (results : list result_entry)
    (errors : list error_entry) : list result_entry * list error_entry :=
  match rows with
  | [] => (results, errors)
  | r :: rest =>
      let '(results', errors') :=
        processRow graph (clock i) i r results errors in
      processRows graph clock (S i) rest results' errors'
  end.

Record reply : Type := mk_reply {
  code : N;
  success : option bool;
  processed : option N;
  successful : option N;
  errorCount : option N;
  results : list result_entry;
  errors : list error_entry;
  error : option string;
  status : option string
}.

Definition failure (c : N) (msg : string) (st : option string) : reply :=
  {| code := c; success := None; processed := None; successful := None;
     errorCount := None; results := []; errors := []; error := Some msg;
     status := st |}.

(** The handler; [file] is [req.file]. *)
Definition processCsv (graph : Update.t -> Js.outcome State.t)
    (clock : nat -> N) (file : option upload) : reply :=
  match file with
  | None => failure 400 "No CSV file uploaded" None
  | Some f =>
      let outcome :=
        csvData ← parse f;
        let '(results, errors) := processRows graph clock 0 csvData [] [] in
        _ ← unlink f;
        Js.Fulfilled
          {| code := 200;
             success := Some true;
             processed := Some (N.of_nat (length csvData));
             successful := Some (N.of_nat (length results));
             errorCount := Some (N.of_nat (length errors));
             results := results;
             errors := errors;
             error := None;
             status := None |} in
      match outcome with
      | Js.Fulfilled r => r
      | Js.Rejected e =>
          failure 500
            match e with
            | Js.ErrorObject m => m
            | Js.OtherValue => "Unknown error occurred"
            end
            (Some "error")
      end
  end.

End Csv.

(** ** Concrete requests and environments *)

Module Sample.

(** The profile of the end-to-end scenario, with the contact data of the
    demo page. *)
Definition profile : Profile.t :=
  {| Profile.contact_id := "FASH-0001";
     Profile.email := "uma.schmidt@example.com";
     Profile.firstname := "Uma";
     Profile.locale := "de-DE";
     Profile.country := "IT";
     Profile.city := "Milano";
     Profile.tags := ["graffiti"; "urban"];
     Profile.interest_keywords := ["street"; "sneakers"];
     Profile.age_range := Some "18-25";
     Profile.gender := Some "Male";
     Profile.price_tier_demographics := None;
     Profile.preferred_category := None |}.

(** The demo page's profile as it is sent: no demographic hints. *)
Definition bareProfile : Profile.t :=
  {| Profile.contact_id := "FASH-0001";
     Profile.email := "uma.schmidt@example.com";
     Profile.firstname := "Uma";
     Profile.locale := "de-DE";
     Profile.country := "IT";
     Profile.city := "Milano";
     Profile.tags := ["graffiti"; "urban"];
     Profile.interest_keywords := ["street"; "sneakers"];
     Profile.age_range := None;
     Profile.gender := None;
     Profile.price_tier_demographics := None;
     Profile.preferred_category := None |}.

(** A profile whose preferred category names a member of
    [Object.prototype]. *)
Definition constructorProfile : Profile.t :=
  {| Profile.contact_id := "FASH-0001";
     Profile.email := "uma.schmidt@example.com";
     Profile.firstname := "Uma";
     Profile.locale := "de-DE";
     Profile.country := "IT";
     Profile.city := "Milano";
     Profile.tags := ["graffiti"; "urban"];
     Profile.interest_keywords := ["street"; "sneakers"];
     Profile.age_range := Some "18-25";
     Profile.gender := Some "Male";
     Profile.price_tier_demographics := None;
     Profile.preferred_category := Some "constructor" |}.

Definition product : Product.t :=
  {| Product.sku := "SKU-DEMO-001";
     Product.title := "Premium Streetwear Hoodie";
     Product.category_of := Product.hoodies;
     Product.colorways := ["#000000"; "#FFFFFF"];
     Product.price_band_of := Product.mid;
     Product.launch_type_of := Product.drop;
     Product.brand_name := "Demo Brand" |}.

Definition fallbackUrl : string := "https://cdn.example.com/fallback.png".

Definition optionsPatch : Server.options_patch :=
  {| Server.patch_aspect := Some Options.aspect_1_1;
     Server.patch_channel := Some Options.instagram_feed;
     Server.patch_fallback_image_url := Some fallbackUrl;
     Server.patch_ab_variant := Some Options.A;
     Server.patch_copy_tone := None |}.

Definition options : Options.t := Server.defaultOptions (Some optionsPatch).

Definition request : Server.body :=
  {| Server.body_profile := Some profile;
     Server.body_product := Some (Product.Complete product);
     Server.body_options := Some optionsPatch |}.

Definition requestWithoutProfile : Server.body :=
  {| Server.body_profile := None;
     Server.body_product := Some (Product.Complete product);
     Server.body_options := Some optionsPatch |}.

(** An HTTP response with the given status and bodies. *)
Definition respond {B : Type} (status : N) (statusText text : string)
    (json : Js.outcome B) : Js.outcome (Http.response B) :=
  Js.Fulfilled
    {| Http.status := status; Http.statusText := statusText;
       Http.text := Js.Fulfilled text; Http.json := json |}.

Definition notJson {B : Type} : Js.outcome B :=
  Js.Rejected (Js.ErrorObject "Unexpected token I in JSON at position 0").

Definition http500 {B : Type} : Js.outcome (Http.response B) :=
  respond 500 "Internal Server Error" "Internal Server Error" notJson.

Definition imageAccepted : Js.outcome (Http.response (option Bfl.result)) :=
  respond 200 "OK" ""
    (Js.Fulfilled
       (Some {| Bfl.polling_url :=
                  Some "https://api.eu2.bfl.ai/v1/get_result?id=req-1";
                Bfl.request_id := Some "req-1" |})).

(** A completion with two choices. *)
Definition copyWritten : Js.outcome (Http.response (option OpenAI.result)) :=
  respond 200 "OK" ""
    (Js.Fulfilled
       (Some {| OpenAI.choices :=
                  Some [Some {| OpenAI.message_of :=
                                  Some {| OpenAI.content :=
                                            Some "Own the street." |} |};
                        Some {| OpenAI.message_of :=
                                  Some {| OpenAI.content :=
                                            Some "Wear it loud." |} |}] |})).

(** Success responses of the copy provider without a usable choice: the
    body [{}], the body [null], and a completion whose [choices] array is
    empty. *)
Definition emptyObject : Js.outcome (Http.response (option OpenAI.result)) :=
  respond 200 "OK" "{}" (Js.Fulfilled (Some {| OpenAI.choices := None |})).

Definition nullBody : Js.outcome (Http.response (option OpenAI.result)) :=
  respond 200 "OK" "null" (Js.Fulfilled None).

Definition noChoice : Js.outcome (Http.response (option OpenAI.result)) :=
  respond 200 "OK" "" (Js.Fulfilled (Some {| OpenAI.choices := Some [] |})).

Definition pollReady : Js.outcome (Http.response (option Poll.data)) :=
  respond 200 "OK" ""
    (Js.Fulfilled
       (Some {| Poll.status := Some "Ready";
                Poll.result := Some "https://cdn.bfl.ai/sample.png";
                Poll.error := None |})).

(** Every provider answers. *)
Definition allUp : Env.t :=
  {| Env.BFL_API_KEY := Some "bfl-key";
     Env.OPENAI_API_KEY := Some "openai-key";
     Env.fetch_bfl := fun _ => imageAccepted;
     Env.fetch_openai := fun _ => copyWritten;
     Env.fetch_poll := fun _ _ => pollReady |}.

(** The image provider answers 500 everywhere. *)
Definition imageDown : Env.t :=
  {| Env.BFL_API_KEY := Some "bfl-key";
     Env.OPENAI_API_KEY := Some "openai-key";
     Env.fetch_bfl := fun _ => http500;
     Env.fetch_openai := fun _ => copyWritten;
     Env.fetch_poll := fun _ _ => http500 |}.

(** The copy provider answers 500. *)
Definition copyDown : Env.t :=
  {| Env.BFL_API_KEY := Some "bfl-key";
     Env.OPENAI_API_KEY := Some "openai-key";
     Env.fetch_bfl := fun _ => imageAccepted;
     Env.fetch_openai := fun _ => http500;
     Env.fetch_poll := fun _ _ => pollReady |}.

(** The copy provider answers 200 with the given body. *)
Definition copyAnswers
    (r : Js.outcome (Http.response (option OpenAI.result))) : Env.t :=
  {| Env.BFL_API_KEY := Some "bfl-key";
     Env.OPENAI_API_KEY := Some "openai-key";
     Env.fetch_bfl := fun _ => imageAccepted;
     Env.fetch_openai := fun _ => r;
     Env.fetch_poll := fun _ _ => pollReady |}.


(** The first mirror cannot be reached, the other two answer 500 and 503. *)
Definition mirrorsFailing : Env.t :=
  {| Env.BFL_API_KEY := Some "bfl-key";
     Env.OPENAI_API_KEY := Some "openai-key";
     Env.fetch_bfl := fun _ => imageAccepted;
     Env.fetch_openai := fun _ => copyWritten;
     Env.fetch_poll := fun url _ =>
       if String.prefix "https://api.eu2." url then
         Js.Rejected (Js.ErrorObject "connect ECONNREFUSED")
       else if String.prefix "https://api.eu4." url then http500
       else respond 503 "Service Unavailable" "" notJson |}.

(** Only the second mirror answers. *)
Definition secondMirrorUp : Env.t :=
  {| Env.BFL_API_KEY := Some "bfl-key";
     Env.OPENAI_API_KEY := Some "openai-key";
     Env.fetch_bfl := fun _ => imageAccepted;
     Env.fetch_openai := fun _ => copyWritten;
     Env.fetch_poll := fun url _ =>
       if String.prefix "https://api.eu4." url then pollReady else http500 |}.

(** The state the workflow is in when the image step starts. *)
Definition beforeImage : State.t :=
  {| State.profile := Some profile; State.product := Some (Product.Complete product);
     State.options := Some options; State.creative := None;
     State.persona := Some Streetwear; State.error := None;
     State.status := "pending" |}.

(** The creative the image step stores once the provider has accepted the
    job. *)
Definition pendingCreative : CreativeContent.t :=
  {| CreativeContent.image_url :=
       Some "https://api.eu2.bfl.ai/v1/get_result?id=req-1";
     CreativeContent.copy := "";
     CreativeContent.persona := Streetwear;
     CreativeContent.color_palette := None;
     CreativeContent.bfl_prompt := None;
     CreativeContent.polling_url :=
       Some "https://api.eu2.bfl.ai/v1/get_result?id=req-1";
     CreativeContent.request_id := Some "req-1" |}.

(** The state the workflow is in when the copy step starts. *)
Definition beforeCopy : State.t :=
  {| State.profile := Some profile; State.product := Some (Product.Complete product);
     State.options := Some options; State.creative := Some pendingCreative;
     State.persona := Some Streetwear; State.error := None;
     State.status := "pending" |}.

(** The state over the channel defaults for the input
    [{ profile, product, options }] of the request. *)
Definition requestState : State.t :=
  merge State.initial
    (workflowInput (Some profile) (Some (Product.Complete product))
       (Some options)).

(** An input that also supplies a status, and the state over the channel
    defaults for it. *)
Definition inputWithStatus : Update.t :=
  {| Update.profile := Written (Some profile);
     Update.product := Written (Some (Product.Complete product));
     Update.options := Written (Some options);
     Update.creative := Omitted; Update.persona := Omitted;
     Update.error := Omitted; Update.status := Written (Some "fallback") |}.

Definition stateWithStatus : State.t := merge State.initial inputWithStatus.

(** The state when the image step starts, for a product sent without its
    [colorways]. *)
Definition withoutColorways : State.t :=
  {| State.profile := Some profile;
     State.product :=
       Some (Product.WithoutColorways "Premium Streetwear Hoodie" "Demo Brand");
     State.options := Some options; State.creative := None;
     State.persona := Some Streetwear; State.error := None;
     State.status := "pending" |}.

(** The state when the image step starts, with other options. *)
Definition beforeImageOtherOptions : State.t :=
  {| State.profile := Some profile;
     State.product := Some (Product.Complete product);
     State.options :=
       Some {| Options.aspect_of := Options.aspect_9_16;
               Options.channel_of := Options.email;
               Options.fallback_image_url := Server.backupImage;
               Options.ab_variant_of := Options.C;
               Options.copy_tone := None |};
     State.creative := None;
     State.persona := Some Streetwear; State.error := None;
     State.status := "pending" |}.

(** The state over the channel defaults for the input the route builds
    from the demo page's request. *)
Definition demoRequestState : State.t :=
  merge State.initial
    (workflowInput (Some bareProfile) (Some (Product.Complete product))
       (Some (Server.defaultOptions None))).


Definition kenRow : Csv.row :=
  {| Csv.contact_id := None;
     Csv.email := None;
     Csv.firstname := Some "Ken";
     Csv.locale := None;
     Csv.country := None;
     Csv.city := None;
     Csv.tags := None;
     Csv.interest_keywords := Some "" |}.


(** The state over the channel defaults for the input the sheet route
    builds from the second row. *)
Definition kenRowState : State.t :=
  merge State.initial
    (workflowInput (Some (Csv.rowProfile 1700000000000 1 kenRow))
       (Some (Product.Complete Csv.demoProduct)) (Some Csv.demoOptions)).


(** A profile with an age range the rules do not list. *)
Definition seniorProfile : Profile.t :=
  {| Profile.contact_id := "FASH-0002";
     Profile.email := "ken.adams@example.com";
     Profile.firstname := "Ken";
     Profile.locale := "en-GB";
     Profile.country := "GB";
     Profile.city := "Leeds";
     Profile.tags := [];
     Profile.interest_keywords := [];
     Profile.age_range := Some "46-60";
     Profile.gender := Some "Male";
     Profile.price_tier_demographics := Some "Premium";
     Profile.preferred_category := Some "Athleisure" |}.

Definition seniorRequestState : State.t :=
  {| State.profile := Some seniorProfile; State.product := Some (Product.Complete product);
     State.options := Some options; State.creative := None;
     State.persona := None; State.error := None;
     State.status := "pending" |}.

End Sample.

(** ** Vocabulary of the specification *)

(** An update is silent on a channel when it omits the key or writes
    [null]. *)
Definition silent {A : Type} (w : write A) : Prop :=
  w = Omitted \/ w = Written None.

(** What a node's update can be. *)
Inductive node_update : Update.t -> Prop :=
| update_error (msg : string) : node_update (Update.of_error msg)
| update_persona (p : PersonaType) : node_update (Update.of_persona p)
| update_creative (c : CreativeContent.t) : node_update (Update.of_creative c).

(** A remote call fails when the provider cannot be reached (the [fetch]
    promise rejects) or answers with a non-success status. *)
Definition remoteFailed {B : Type} (r : Js.outcome (Http.response B)) : Prop :=
  match r with
  | Js.Rejected _ => True
  | Js.Fulfilled response => Http.ok response = false
  end.

(** The persona decision table as the specification words it: an ordered
    list of predicate/result pairs, the first match wins, and the lower
    bound of the age range decides when no rule matches. *)
Definition personaRules : list ((Profile.t -> bool) * PersonaType) :=
  [ (fun p => bool_decide (Profile.age_range p = Some "18-25")
              && bool_decide (Profile.gender p = Some "Male"),
     Streetwear);
    (fun p => bool_decide (Profile.age_range p = Some "26-35")
              && bool_decide (Profile.gender p = Some "Female"),
     Minimalist);
    (fun p => bool_decide (Profile.age_range p = Some "36-45")
              && bool_decide (Profile.price_tier_demographics p = Some "Premium"),
     LuxuryClassic);
    (fun p => bool_decide (Profile.age_range p = Some "18-35")
              && bool_decide (Profile.preferred_category p = Some "Athleisure"),
     Athleisure) ].

Fixpoint firstMatch {A R : Type} (rules : list ((A -> bool) * R)) (a : A)
    : option R :=
  match rules with
  | [] => None
  | (applies, result) :: rest =>
      if applies a then Some result else firstMatch rest a
  end.

(** The integer lower bound of an age-range string; [None] when it does
    not start with an integer. *)
Definition lowerBound (age_range : string) : option Z :=
  Js.parseInt (Js.split_first "-" age_range).

Definition personaTable (p : Profile.t) (age_range : string) : PersonaType :=
  match firstMatch personaRules p with
  | Some persona => persona
  | None =>
      match lowerBound age_range with
      | Some n => if (n <? 30)%Z then Streetwear else Minimalist
      | None => Minimalist
      end
  end.

(** The prompt as the specification words it: the template of the given
    category, the persona clause, the comma-joined colorways and the
    quality suffix. *)
Definition promptFrom (template : string) (persona : PersonaType)
    (product : Product.t) : string :=
  template ++ ", " ++ personaPrompts persona ++ ", colors: "
  ++ Js.join ", " (Product.colorways product) ++ ", " ++ qualitySuffix.

(** The template the specification selects: the one of the preferred
    category, the fashion one when the category is absent or is not a key
    of the table. *)
Definition templateFor (product : Product.t) (profile : option Profile.t)
    : string :=
  match profile ≫= Profile.preferred_category with
  | Some category =>
      default (fashionPrompt product) (categoryPrompts product !! category)
  | None => fashionPrompt product
  end.

(** The polling contract as the specification words it. *)
Module PollSpec.

(** How one endpoint failed. *)
Inductive failure : Type :=
| Unreachable (e : Js.thrown)
| BadStatus (status : N).

Definition failureOf {B : Type} (r : Js.outcome (Http.response B))
    : option failure :=
  match r with
  | Js.Rejected e => Some (Unreachable e)
  | Js.Fulfilled response =>
      if Http.ok response then None else Some (BadStatus (Http.status response))
  end.

Section WithFetch.
Context {B : Type}.
Variable fetch : string -> Js.outcome (Http.response B).

(** The response of the first endpoint, in list order, that answers with
    a success status. *)
Fixpoint firstSuccess (urls : list string) : option (Http.response B) :=
  match urls with
  | [] => None
  | url :: rest =>
      match fetch url with
      | Js.Fulfilled response =>
          if Http.ok response then Some response else firstSuccess rest
      | Js.Rejected _ => firstSuccess rest
      end
  end.

(** The endpoints up to and including the first successful one. *)
Fixpoint upToFirstSuccess (urls : list string) : list string :=
  match urls with
  | [] => []
  | url :: rest =>
      match failureOf (fetch url) with
      | None => [url]
      | Some _ => url :: upToFirstSuccess rest
      end
  end.

(** The failure of the endpoint tried last among [urls]. *)
Definition mostRecentFailure (urls : list string) : option failure :=
  last (omap (fun url => failureOf (fetch url)) urls).

(** The exception of the last endpoint among [urls] whose [fetch]
    rejected. *)
Definition mostRecentException (urls : list string) : option Js.thrown :=
  last (omap (fun url =>
                match fetch url with
                | Js.Rejected e => Some e
                | Js.Fulfilled _ => None
                end) urls).

End WithFetch.
End PollSpec.

(** The message of the [TypeError] that reading [.split] on a missing
    [age_range] raises. *)
Definition splitTypeError : string :=
  "Cannot read properties of undefined (reading 'split')".

(** The message of the [TypeError] that reading [.join] on a missing
    [colorways] raises. *)
Definition joinTypeError : string :=
  "Cannot read properties of undefined (reading 'join')".

(** The four statements of the nodes that can throw outside a [try]
    block, each with the condition under which it does and the exception
    it raises. *)
Inductive nodeThrows (env : Env.t) (s : State.t) : node -> Js.thrown -> Prop :=
| throws_image_key :
    Js.truthy_opt (Env.BFL_API_KEY env) = false ->
    nodeThrows env s n_generateImage
      (Js.ErrorObject "BFL_API_KEY environment variable is required")
| throws_copy_key :
    Js.truthy_opt (Env.OPENAI_API_KEY env) = false ->
    nodeThrows env s n_generateCopy
      (Js.ErrorObject "OPENAI_API_KEY environment variable is required")
| throws_age_range (p : Profile.t) :
    State.profile s = Some p ->
    Profile.age_range p = None ->
    nodeThrows env s n_inferPersona (Js.ErrorObject splitTypeError)
| throws_colorways (product_title product_brand_name : string) :
    State.product s
    = Some (Product.WithoutColorways product_title product_brand_name) ->
    nodeThrows env s n_generateImage (Js.ErrorObject joinTypeError).

(** A sequence of node executions: the nodes of [order] run one after the
    other, each on the state the earlier ones left, and each update is
    merged by the reducers; a node that throws ends the sequence.  It
    stands for an execution path, whatever chooses the order. *)
Fixpoint runInOrder (env : Env.t) (order : list node) (state : State.t)
    : Js.outcome State.t :=
  match order with
  | [] => Js.Fulfilled state
  | n :: rest =>
      update ← run_node env n state;
      runInOrder env rest (merge state update)
  end.

(** The creative the image step stores once the provider has accepted the
    job with [result]: the polling URL stands in for the image, the copy
    is empty. *)
Definition submittedCreative (persona : PersonaType) (result : Bfl.result)
    : CreativeContent.t :=
  {| CreativeContent.image_url :=
       Some (Js.or_else (Bfl.polling_url result) placeholderImage);
     CreativeContent.copy := "";
     CreativeContent.persona := persona;
     CreativeContent.color_palette := None;
     CreativeContent.bfl_prompt := None;
     CreativeContent.polling_url := Bfl.polling_url result;
     CreativeContent.request_id := Bfl.request_id result |}.

(** Two states that differ at most in their options, and there at most in
    the properties other than [copy_tone]. *)
Definition sameButOptions (s s' : State.t) : Prop :=
  State.profile s = State.profile s'
  /\ State.product s = State.product s'
  /\ State.creative s = State.creative s'
  /\ State.persona s = State.persona s'
  /\ State.error s = State.error s'
  /\ State.status s = State.status s'
  /\ match State.options s, State.options s' with
     | Some o, Some o' => Options.copy_tone o = Options.copy_tone o'
     | None, None => True
     | _, _ => False
     end.

(** A list item as [splitString] leaves it: not empty, without white
    space at either end, without a semicolon. *)
Definition cleanItem (item : string) : Prop :=
  item <> ""
  /\ Js.trim_start item = item
  /\ Csv.trim_end item = item
  /\ ";"%char ∉ list_ascii_of_string item.

(** * Properties *)

(** ** Merging updates *)

Lemma apply_write_silent {A : Type} (l : option A) (w : write A) :
  silent w -> apply_write l w = l.
Proof. intros [-> | ->]; reflexivity. Qed.

Lemma apply_status_write_silent (l : string) (w : write string) :
  silent w -> apply_status_write l w = l.
Proof. intros [-> | ->]; reflexivity. Qed.

Lemma apply_write_is_Some {A : Type} (l : option A) (w : write A) :
  is_Some l -> is_Some (apply_write l w).
Proof.
  intros Hset. destruct w as [| [v |]]; simpl; [assumption | eauto | assumption].
Qed.

Lemma merge_empty (s : State.t) : merge s Update.empty = s.
Proof. destruct s; reflexivity. Qed.

Lemma merge_of_state (s : State.t) : merge s (Update.of_state s) = s.
Proof.
  destruct s as [pf pd op cr ps er st]; unfold merge; simpl.
  destruct pf, pd, op, cr, ps, er; reflexivity.
Qed.

(** C8.  Merging an update never un-sets a channel.  For each of the seven
    channels (profile, product, options, creative, persona, error,
    status): when the update omits the channel or writes [null] to it,
    the merged state holds the value the state held; and whatever the
    update writes, a channel that held a value holds one afterwards. *)
Theorem merge_never_unsets (s : State.t) (u : Update.t) :
  (silent (Update.profile u) -> State.profile (merge s u) = State.profile s)
  /\ (silent (Update.product u) -> State.product (merge s u) = State.product s)
  /\ (silent (Update.options u) -> State.options (merge s u) = State.options s)
  /\ (silent (Update.persona u) -> State.persona (merge s u) = State.persona s)
  /\ (silent (Update.creative u) -> State.creative (merge s u) = State.creative s)
  /\ (silent (Update.error u) -> State.error (merge s u) = State.error s)
  /\ (silent (Update.status u) -> State.status (merge s u) = State.status s)
  /\ (is_Some (State.profile s) -> is_Some (State.profile (merge s u)))
  /\ (is_Some (State.product s) -> is_Some (State.product (merge s u)))
  /\ (is_Some (State.options s) -> is_Some (State.options (merge s u)))
  /\ (is_Some (State.persona s) -> is_Some (State.persona (merge s u)))
  /\ (is_Some (State.creative s) -> is_Some (State.creative (merge s u)))
  /\ (is_Some (State.error s) -> is_Some (State.error (merge s u))).
Proof.
  unfold merge; simpl.
  repeat split;
    first [ apply apply_write_silent
          | apply apply_status_write_silent
          | apply apply_write_is_Some ].
Qed.

(** ** The status channel *)

Ltac node_cases :=
  unfold Js.try_catch, mbind, outcome_bind, Js.bind;
  intros; repeat case_match; simplify_eq; try constructor.

Lemma inferPersona_update (s : State.t) (u : Update.t) :
  inferPersona s = Js.Fulfilled u -> node_update u.
Proof. unfold inferPersona. node_cases. Qed.

Lemma generateImage_update (env : Env.t) (s : State.t) (u : Update.t) :
  generateImage env s = Js.Fulfilled u -> node_update u.
Proof. unfold generateImage. node_cases. Qed.

Lemma generateCopy_update (env : Env.t) (s : State.t) (u : Update.t) :
  generateCopy env s = Js.Fulfilled u -> node_update u.
Proof. unfold generateCopy. node_cases. Qed.

(** Every node leaves the status channel as it is: [end] writes back the
    value it read, the other nodes omit the key. *)
Lemma run_node_status (env : Env.t) (n : node) (s : State.t) (u : Update.t) :
  run_node env n s = Js.Fulfilled u ->
  Update.status u = Omitted \/ Update.status u = Written (Some (State.status s)).
Proof.
  destruct n; simpl; intros Hrun.
  - apply inferPersona_update in Hrun. destruct Hrun; left; reflexivity.
  - apply generateImage_update in Hrun. destruct Hrun; left; reflexivity.
  - apply generateCopy_update in Hrun. destruct Hrun; left; reflexivity.
  - injection Hrun as <-. left; reflexivity.
  - injection Hrun as <-. right; reflexivity.
Qed.

Lemma run_node_keeps_status (env : Env.t) (n : node) (s : State.t) (u : Update.t) :
  run_node env n s = Js.Fulfilled u ->
  State.status (merge s u) = State.status s.
Proof.
  intros Hrun. apply run_node_status in Hrun.
  unfold merge; simpl. destruct Hrun as [-> | ->]; reflexivity.
Qed.

(** C10, as stated, fails.  The node [end] returns the whole state, so it
    writes the status channel; and the status is not ['pending'] for
    every input: over the channel defaults, the input
    [{ profile, product, options, status: 'fallback' }] gives a state
    whose status is ['fallback'], and the node hands that value on. *)
Lemma end_node_writes_status :
  State.status Sample.stateWithStatus = "fallback"
  /\ run_node Sample.allUp n_end Sample.stateWithStatus
     = Js.Fulfilled (Update.of_state Sample.stateWithStatus)
  /\ Update.status (Update.of_state Sample.stateWithStatus)
     = Written (Some "fallback")
  /\ Update.status (Update.of_state Sample.stateWithStatus) <> Omitted
  /\ State.status
       (merge Sample.stateWithStatus (Update.of_state Sample.stateWithStatus))
     = "fallback"
  /\ State.status
       (merge Sample.stateWithStatus (Update.of_state Sample.stateWithStatus))
     <> "pending".
Proof.
  repeat split; try reflexivity; vm_compute; discriminate.
Qed.

(** C10, amended.  No node changes the status channel.  Each of
    [inferPersona], [generateImage], [generateCopy] and [error] omits the
    key, and [end] writes back the value it read; so after any sequence
    of node executions that returns, the status is the one the sequence
    started with.  Over the channel defaults, an input that supplies no
    status starts with ['pending']; from there the nodes never produce
    ['fallback']. *)
Theorem nodes_keep_status (env : Env.t) (order : list node)
    (s final : State.t) :
  runInOrder env order s = Js.Fulfilled final ->
  State.status final = State.status s
  /\ (State.status s = "pending" -> State.status final <> "fallback")
  /\ (forall n s' u,
        run_node env n s' = Js.Fulfilled u ->
        State.status (merge s' u) = State.status s'
        /\ (n <> n_end -> Update.status u = Omitted)
        /\ (n = n_end -> Update.status u = Written (Some (State.status s'))))
  /\ (forall input,
        silent (Update.status input) ->
        State.status (merge State.initial input) = "pending").
Proof.
  intros Hrun.
  assert (State.status final = State.status s) as Hsame.
  { revert s Hrun. induction order as [| n rest IH]; intros s; simpl.
    - intros [= ->]. reflexivity.
    - unfold mbind, outcome_bind, Js.bind.
      destruct (run_node env n s) as [u | e] eqn:Hnode; [| discriminate].
      intros Hrest. rewrite (IH _ Hrest).
      exact (run_node_keeps_status env n s u Hnode). }
  split; [exact Hsame |].
  split; [intros Hpending; rewrite Hsame, Hpending; discriminate |].
  split.
  - intros n s' u Hnode.
    split; [exact (run_node_keeps_status env n s' u Hnode) |].
    split.
    + intros Hn. destruct n; simpl in Hnode; try contradiction.
      * apply inferPersona_update in Hnode. destruct Hnode; reflexivity.
      * apply generateImage_update in Hnode. destruct Hnode; reflexivity.
      * apply generateCopy_update in Hnode. destruct Hnode; reflexivity.
      * injection Hnode as <-. reflexivity.
    + intros ->. simpl in Hnode. injection Hnode as <-. reflexivity.
  - intros input Hsilent. unfold merge; simpl.
    apply apply_status_write_silent, Hsilent.
Qed.

Lemma nodes_keep_status_witness :
  exists final,
    runInOrder Sample.allUp
      [n_inferPersona; n_generateImage; n_generateCopy; n_end]
      Sample.requestState
    = Js.Fulfilled final
    /\ State.status final = "pending"
    /\ State.status final <> "fallback".
Proof.
  eexists. split; [vm_compute; reflexivity |].
  destruct (nodes_keep_status Sample.allUp
              [n_inferPersona; n_generateImage; n_generateCopy; n_end]
              Sample.requestState _ eq_refl) as (Hsame & Hnever & _).
  split; [exact Hsame | exact (Hnever eq_refl)].
Defined.

(** ** The persona classifier *)

Ltac decide_rule :=
  match goal with
  | |- context [decide (?P /\ ?Q)] =>
      let H := fresh "Hrule" in
      destruct (decide (P /\ Q)) as [[? ?] | H];
      [ rewrite (bool_decide_eq_true_2 P), (bool_decide_eq_true_2 Q) by assumption
      | assert (bool_decide P && bool_decide Q = false) as ->
          by (destruct (bool_decide_reflect P), (bool_decide_reflect Q);
              simpl; tauto) ]
  end.

Lemma inferPersona_table (s : State.t) (p : Profile.t) (q : Product.payload)
    (a : string) :
  State.profile s = Some p ->
  State.product s = Some q ->
  Profile.age_range p = Some a ->
  inferPersona s = Js.Fulfilled (Update.of_persona (personaTable p a)).
Proof.
  intros Hp Hq Ha.
  unfold inferPersona, personaTable, personaRules, firstMatch, lowerBound.
  rewrite Hp, Hq.
  repeat (decide_rule; [reflexivity |]).
  rewrite Ha. unfold Js.number_lt.
  destruct (Js.parseInt (Js.split_first "-" a)); reflexivity.
Qed.

Lemma personaTable_no_rule (p : Profile.t) (a : string) :
  firstMatch personaRules p = None ->
  personaTable p a =
    match lowerBound a with
    | Some n => if (n <? 30)%Z then Streetwear else Minimalist
    | None => Minimalist
    end.
Proof. unfold personaTable. intros ->. reflexivity. Qed.

(** With profile and product present and an age range given, the
    classifier returns the persona of the ordered decision table, first
    match winning: ["18-25"] and ["Male"] give Streetwear; ["26-35"] and
    ["Female"] give Minimalist; ["36-45"] and ["Premium"] give
    LuxuryClassic; ["18-35"] and ["Athleisure"] give Athleisure; and when
    no rule applies, a lower bound below 30 gives Streetwear and anything
    else (30 or more, or no integer) gives Minimalist.  The result is a
    function of the profile. *)
Theorem inferPersona_decision_table (s : State.t) (p : Profile.t)
    (q : Product.payload) (a : string) :
  State.profile s = Some p ->
  State.product s = Some q ->
  Profile.age_range p = Some a ->
  inferPersona s = Js.Fulfilled (Update.of_persona (personaTable p a))
  /\ (a = "18-25" -> Profile.gender p = Some "Male" ->
      personaTable p a = Streetwear)
  /\ (a = "26-35" -> Profile.gender p = Some "Female" ->
      personaTable p a = Minimalist)
  /\ (a = "36-45" -> Profile.price_tier_demographics p = Some "Premium" ->
      personaTable p a = LuxuryClassic)
  /\ (a = "18-35" -> Profile.preferred_category p = Some "Athleisure" ->
      personaTable p a = Athleisure)
  /\ (forall n, firstMatch personaRules p = None -> lowerBound a = Some n ->
      (n < 30)%Z -> personaTable p a = Streetwear)
  /\ (forall n, firstMatch personaRules p = None -> lowerBound a = Some n ->
      (30 <= n)%Z -> personaTable p a = Minimalist)
  /\ (firstMatch personaRules p = None -> lowerBound a = None ->
      personaTable p a = Minimalist).
Proof.
  intros Hp Hq Ha.
  split; [exact (inferPersona_table s p q a Hp Hq Ha) |].
  repeat split.
  - intros -> Hg. unfold personaTable, personaRules, firstMatch.
    rewrite Ha, Hg. reflexivity.
  - intros -> Hg. unfold personaTable, personaRules, firstMatch.
    rewrite Ha, Hg. reflexivity.
  - intros -> Hg. unfold personaTable, personaRules, firstMatch.
    rewrite Ha, Hg. reflexivity.
  - intros -> Hg. unfold personaTable, personaRules, firstMatch.
    rewrite Ha, Hg. reflexivity.
  - intros n Hnone Hn Hlt. rewrite (personaTable_no_rule p a Hnone), Hn.
    destruct (Z.ltb_spec n 30); [reflexivity | lia].
  - intros n Hnone Hn Hge. rewrite (personaTable_no_rule p a Hnone), Hn.
    destruct (Z.ltb_spec n 30); [lia | reflexivity].
  - intros Hnone Hn. rewrite (personaTable_no_rule p a Hnone), Hn.
    reflexivity.
Qed.

Lemma inferPersona_decision_table_witness :
  inferPersona Sample.beforeImage
  = Js.Fulfilled (Update.of_persona (personaTable Sample.profile "18-25")).
Proof.
  exact (proj1 (inferPersona_decision_table Sample.beforeImage Sample.profile
                  (Product.Complete Sample.product) "18-25"
                  eq_refl eq_refl eq_refl)).
Defined.

(** The lower bound decides for an age range the rules do not list. *)
Example inferPersona_lower_bound :
  personaTable Sample.bareProfile "29-40" = Streetwear
  /\ personaTable Sample.bareProfile "30-40" = Minimalist
  /\ personaTable Sample.bareProfile "senior" = Minimalist.
Proof. repeat split; vm_compute; reflexivity. Qed.

(** ** The prompt builder *)

Lemma categoryPrompts_truthy (product : Product.t) (category template : string) :
  categoryPrompts product !! category = Some template ->
  Js.truthy template = true.
Proof.
  intros Hlookup. unfold categoryPrompts in Hlookup.
  apply elem_of_list_to_map_2 in Hlookup.
  repeat (apply elem_of_cons in Hlookup as [Hlookup | Hlookup];
          [injection Hlookup as -> ->; reflexivity |]).
  apply elem_of_nil in Hlookup. contradiction.
Qed.

Lemma categoryPrompts_fashion (product : Product.t) :
  categoryPrompts product !! "fashion" = Some (fashionPrompt product).
Proof. reflexivity. Qed.

Lemma categoryPrompts_empty_key (product : Product.t) :
  categoryPrompts product !! "" = None.
Proof. reflexivity. Qed.

Lemma truthy_nonempty (s : string) : Js.truthy s = false -> s = "".
Proof.
  unfold Js.truthy. destruct (String.eqb_spec s ""); [auto | discriminate].
Qed.

(** For every category that is not the name of a member of
    [Object.prototype], the prompt is the concatenation the specification
    describes. *)
Lemma createBFLPrompt_shape (persona : PersonaType) (product : Product.t)
    (profile : option Profile.t) :
  Js.object_prototype
    !! Js.or_else (profile ≫= Profile.preferred_category) "fashion" = None ->
  createBFLPrompt persona product profile
  = promptFrom (templateFor product profile) persona product.
Proof.
  unfold createBFLPrompt, templateFor, promptFrom, Js.get, Js.or_else.
  destruct (profile ≫= Profile.preferred_category) as [category |];
    [| intros _; rewrite categoryPrompts_fashion; reflexivity].
  destruct (Js.truthy category) eqn:Htruthy.
  - intros Hproto.
    destruct (categoryPrompts product !! category) as [template |] eqn:Hown.
    + simpl. rewrite (categoryPrompts_truthy _ _ _ Hown). reflexivity.
    + rewrite Hproto. reflexivity.
  - intros _. apply truthy_nonempty in Htruthy. subst category.
    rewrite categoryPrompts_fashion, categoryPrompts_empty_key. reflexivity.
Qed.

(** The end-to-end scenario of the specification: the prompt carries the
    product title, the graffiti clause and the comma-joined colorways. *)
Example createBFLPrompt_scenario :
  createBFLPrompt Streetwear Sample.product (Some Sample.profile)
  = "Fashion product photography of " ++ Product.title Sample.product
    ++ " by Demo Brand, urban street style, "
    ++ "graffiti" ++ " background, neon lighting, chunky sneakers, oversized fit, edgy aesthetic, colors: "
    ++ "#000000, #FFFFFF" ++ ", high quality, professional photography, 4K resolution".
Proof. vm_compute. reflexivity. Qed.

(** C6, at a category the table does not list.  The preferred category
    ["constructor"] is not a key of [categoryPrompts], so the
    specification selects the fashion template; the property read finds
    [Object.prototype.constructor] instead, and the prompt starts with the
    rendering of that function, not with the fashion template. *)
Theorem createBFLPrompt_inherited_category :
  categoryPrompts Sample.product !! "constructor" = None
  /\ templateFor Sample.product (Some Sample.constructorProfile)
     = fashionPrompt Sample.product
  /\ createBFLPrompt Streetwear Sample.product (Some Sample.constructorProfile)
     = promptFrom "function Object() { [native code] }" Streetwear Sample.product
  /\ createBFLPrompt Streetwear Sample.product (Some Sample.constructorProfile)
     <> promptFrom (templateFor Sample.product (Some Sample.constructorProfile))
          Streetwear Sample.product.
Proof.
  repeat split; try (vm_compute; reflexivity).
  vm_compute. discriminate.
Qed.

(** ** The nodes and their remote calls *)




(** A failed image request is reported as an ErrorState whose message
    starts with ["Image generation failed: "]. *)
Lemma generateImage_remote_failure (env : Env.t) (state : State.t)
    (profile : Profile.t) (product : Product.t) (options : Options.t)
    (persona : PersonaType) (key : string) :
  State.profile state = Some profile ->
  State.product state = Some (Product.Complete product) ->
  State.options state = Some options ->
  State.persona state = Some persona ->
  Env.BFL_API_KEY env = Some key ->
  Js.truthy key = true ->
  remoteFailed
    (Env.fetch_bfl env
       (imageRequest key (createBFLPrompt persona product (Some profile)))) ->
  exists reason,
    generateImage env state
    = Js.Fulfilled (Update.of_error ("Image generation failed: " ++ reason)).
Proof.
  intros Hprofile Hproduct Hoptions Hpersona Hkey Htruthy Hfailed.
  unfold generateImage.
  rewrite Hprofile, Hproduct, Hoptions, Hpersona, Hkey, Htruthy.
  unfold Js.try_catch, mbind, outcome_bind, Js.bind.
  destruct (Env.fetch_bfl env _) as [response | e]; simpl in *.
  - rewrite Hfailed. simpl. destruct (Http.text response); eauto.
  - eauto.
Qed.




(** With both API keys configured and a product sent without its
    [colorways], [generateImage] throws as well: [createBFLPrompt] runs
    before the [try] block. *)
Example generateImage_throws_without_colorways :
  generateImage Sample.allUp Sample.withoutColorways
  = Js.Rejected (Js.ErrorObject joinTypeError).
Proof. reflexivity. Qed.


(** ** The copy step *)

(** When the copy provider answers with a success status and a
    completion object that has a [choices] array, [generateCopy] returns
    the creative it was given with only [copy] replaced: by the message
    text of the first choice when there is a non-empty one, whatever the
    later choices hold, and by the fixed default string when that text is
    absent (no choice, a null choice, no message, no content) or empty.
    Every other field of the creative is preserved. *)
Theorem generateCopy_extracts_first_choice (env : Env.t) (state : State.t)
    (profile : Profile.t) (product : Product.payload) (persona : PersonaType)
    (creative : CreativeContent.t) (key : string)
    (response : Http.response (option OpenAI.result))
    (result : OpenAI.result) (choices : list (option OpenAI.choice)) :
  State.profile state = Some profile ->
  State.product state = Some product ->
  State.persona state = Some persona ->
  State.creative state = Some creative ->
  Env.OPENAI_API_KEY env = Some key ->
  Js.truthy key = true ->
  Env.fetch_openai env (copyRequest key state profile product persona)
  = Js.Fulfilled response ->
  Http.ok response = true ->
  Http.json response = Js.Fulfilled (Some result) ->
  OpenAI.choices result = Some choices ->
  exists updated,
    generateCopy env state = Js.Fulfilled (Update.of_creative updated)
    /\ (forall first others text,
          choices = Some first :: others ->
          OpenAI.message_of first = Some {| OpenAI.content := Some text |} ->
          text <> "" ->
          CreativeContent.copy updated = text)
    /\ (forall text, firstChoiceContent choices = Some text -> text <> "" ->
        CreativeContent.copy updated = text)
    /\ (firstChoiceContent choices = None ->
        CreativeContent.copy updated = "Discover the perfect style for you.")
    /\ (firstChoiceContent choices = Some "" ->
        CreativeContent.copy updated = "Discover the perfect style for you.")
    /\ CreativeContent.image_url updated = CreativeContent.image_url creative
    /\ CreativeContent.persona updated = CreativeContent.persona creative
    /\ CreativeContent.color_palette updated = CreativeContent.color_palette creative
    /\ CreativeContent.bfl_prompt updated = CreativeContent.bfl_prompt creative
    /\ CreativeContent.polling_url updated = CreativeContent.polling_url creative
    /\ CreativeContent.request_id updated = CreativeContent.request_id creative.
Proof.
  intros Hprofile Hproduct Hpersona Hcreative Hkey Htruthy Hfetch Hok Hjson Hchoices.
  exists (CreativeContent.with_copy creative
            (Js.or_else (firstChoiceContent choices) defaultCopy)).
  split.
  { unfold generateCopy.
    rewrite Hprofile, Hproduct, Hpersona, Hcreative, Hkey, Htruthy.
    unfold Js.try_catch, mbind, outcome_bind, Js.bind.
    rewrite Hfetch, Hok. simpl. rewrite Hjson, Hchoices. reflexivity. }
  assert (forall text, firstChoiceContent choices = Some text -> text <> "" ->
                       Js.or_else (firstChoiceContent choices) defaultCopy = text)
    as Htext.
  { intros text -> Hne. unfold Js.or_else, Js.truthy.
    destruct (String.eqb_spec text ""); [contradiction | reflexivity]. }
  simpl. repeat split.
  - intros first others text -> Hmessage Hne. apply Htext; [| exact Hne].
    simpl. rewrite Hmessage. reflexivity.
  - exact Htext.
  - intros ->. reflexivity.
  - intros ->. reflexivity.
Qed.

Lemma generateCopy_extracts_first_choice_witness :
  exists updated,
    generateCopy Sample.allUp Sample.beforeCopy
    = Js.Fulfilled (Update.of_creative updated)
    /\ CreativeContent.copy updated = "Own the street.".
Proof.
  destruct (generateCopy_extracts_first_choice Sample.allUp Sample.beforeCopy
              Sample.profile (Product.Complete Sample.product) Streetwear
              Sample.pendingCreative "openai-key" _ _ _
              eq_refl eq_refl eq_refl eq_refl eq_refl eq_refl eq_refl
              eq_refl eq_refl eq_refl)
    as (updated & Hrun & Hfirst & _).
  exists updated. split; [exact Hrun |].
  apply (Hfirst _ _ "Own the street." eq_refl eq_refl). discriminate.
Defined.

(** C7, at success responses without a [choices] array.  The copy
    provider answers 200 and the body is [{}]: the claim has the step
    return the default string, the text being absent; the step reads
    [result.choices[0]] without a guard on [choices], the read throws
    inside the [try] block, and the step returns an ErrorState instead of
    an update of the creative.  The same happens for the body [null].
    For a completion whose [choices] array is empty, where the optional
    chaining applies, the step does return the default string. *)
Theorem generateCopy_without_choices :
  Sample.emptyObject
  = Js.Fulfilled
      {| Http.status := 200; Http.statusText := "OK";
         Http.text := Js.Fulfilled "{}";
         Http.json := Js.Fulfilled (Some {| OpenAI.choices := None |}) |}
  /\ generateCopy (Sample.copyAnswers Sample.emptyObject) Sample.beforeCopy
     = Js.Fulfilled
         (Update.of_error
            "Copy generation failed: Cannot read properties of undefined (reading '0')")
  /\ generateCopy (Sample.copyAnswers Sample.nullBody) Sample.beforeCopy
     = Js.Fulfilled
         (Update.of_error
            "Copy generation failed: Cannot read properties of null (reading 'choices')")
  /\ (forall updated,
        generateCopy (Sample.copyAnswers Sample.emptyObject) Sample.beforeCopy
        <> Js.Fulfilled (Update.of_creative updated))
  /\ generateCopy (Sample.copyAnswers Sample.noChoice) Sample.beforeCopy
     = Js.Fulfilled
         (Update.of_creative
            (CreativeContent.with_copy Sample.pendingCreative
               "Discover the perfect style for you.")).
Proof.
  repeat split; try reflexivity.
  intros updated Hrun. vm_compute in Hrun. discriminate.
Qed.

(** ** Steps of the workflow *)

Lemma merge_of_persona (s : State.t) (p : PersonaType) :
  merge s (Update.of_persona p)
  = {| State.profile := State.profile s; State.product := State.product s;
       State.options := State.options s; State.creative := State.creative s;
       State.persona := Some p; State.error := State.error s;
       State.status := State.status s |}.
Proof. reflexivity. Qed.

Lemma merge_of_creative (s : State.t) (c : CreativeContent.t) :
  merge s (Update.of_creative c)
  = {| State.profile := State.profile s; State.product := State.product s;
       State.options := State.options s; State.creative := Some c;
       State.persona := State.persona s; State.error := State.error s;
       State.status := State.status s |}.
Proof. reflexivity. Qed.

Lemma merge_of_error (s : State.t) (msg : string) :
  merge s (Update.of_error msg)
  = {| State.profile := State.profile s; State.product := State.product s;
       State.options := State.options s; State.creative := State.creative s;
       State.persona := State.persona s;
       State.error :=
         Some {| ErrorState.error := Some msg; ErrorState.retry_count := 0 |};
       State.status := State.status s |}.
Proof. reflexivity. Qed.

Lemma or_else_truthy (v : option string) (d : string) :
  Js.truthy d = true -> Js.truthy (Js.or_else v d) = true.
Proof.
  intros Hd. unfold Js.or_else.
  destruct v as [s |]; [| exact Hd].
  destruct (Js.truthy s) eqn:Hs; assumption.
Qed.

(** The image step when the provider accepts the job. *)
Lemma generateImage_success (env : Env.t) (state : State.t)
    (profile : Profile.t) (product : Product.t) (options : Options.t)
    (persona : PersonaType) (key : string)
    (response : Http.response (option Bfl.result)) (result : Bfl.result) :
  State.profile state = Some profile ->
  State.product state = Some (Product.Complete product) ->
  State.options state = Some options ->
  State.persona state = Some persona ->
  Env.BFL_API_KEY env = Some key ->
  Js.truthy key = true ->
  Env.fetch_bfl env
    (imageRequest key (createBFLPrompt persona product (Some profile)))
  = Js.Fulfilled response ->
  Http.ok response = true ->
  Http.json response = Js.Fulfilled (Some result) ->
  generateImage env state
  = Js.Fulfilled
      (Update.of_creative
         {| CreativeContent.image_url :=
              Some (Js.or_else (Bfl.polling_url result) placeholderImage);
            CreativeContent.copy := "";
            CreativeContent.persona := persona;
            CreativeContent.color_palette := None;
            CreativeContent.bfl_prompt := None;
            CreativeContent.polling_url := Bfl.polling_url result;
            CreativeContent.request_id := Bfl.request_id result |}).
Proof.
  intros Hprofile Hproduct Hoptions Hpersona Hkey Htruthy Hfetch Hok Hjson.
  unfold generateImage.
  rewrite Hprofile, Hproduct, Hoptions, Hpersona, Hkey, Htruthy.
  unfold Js.try_catch, mbind, outcome_bind, Js.bind.
  rewrite Hfetch, Hok. simpl. rewrite Hjson. reflexivity.
Qed.

Lemma inferPersona_missing_input (s : State.t) :
  State.profile s = None \/ State.product s = None ->
  inferPersona s = Js.Fulfilled (Update.of_error missing_persona_data).
Proof.
  unfold inferPersona. intros [-> | ->]; [reflexivity |].
  destruct (State.profile s); reflexivity.
Qed.

Lemma generateImage_missing_input (env : Env.t) (s : State.t) :
  State.profile s = None \/ State.product s = None ->
  generateImage env s = Js.Fulfilled (Update.of_error missing_image_data).
Proof.
  unfold generateImage. intros [-> | ->]; [reflexivity |].
  destruct (State.profile s); reflexivity.
Qed.

Lemma generateCopy_missing_input (env : Env.t) (s : State.t) :
  State.profile s = None \/ State.product s = None ->
  generateCopy env s = Js.Fulfilled (Update.of_error missing_copy_data).
Proof.
  unfold generateCopy. intros [-> | ->]; [reflexivity |].
  destruct (State.profile s); reflexivity.
Qed.

(** The image step reads nothing of the options but their presence. *)
Lemma generateImage_options (env : Env.t) (s s' : State.t) :
  State.profile s' = State.profile s ->
  State.product s' = State.product s ->
  State.persona s' = State.persona s ->
  is_Some (State.options s) ->
  is_Some (State.options s') ->
  generateImage env s' = generateImage env s.
Proof.
  intros Hprofile Hproduct Hpersona [o Ho] [o' Ho'].
  unfold generateImage. rewrite Hprofile, Hproduct, Hpersona, Ho, Ho'.
  reflexivity.
Qed.

(** ** What the image step, the copy step and the route do on a failure *)

(** C1, as stated, fails.  The image provider answers 500 and the options
    carry a fallback image URL of the caller.  [generateImage] returns
    only an ErrorState: merged into the state, it leaves the creative
    unset and the status ['pending'], and the answer of the route for
    that result is a 500 with status ['error'] and no creative. *)
Lemma image_failure_no_fallback :
  remoteFailed
    (Env.fetch_bfl Sample.imageDown
       (imageRequest "bfl-key"
          (createBFLPrompt Streetwear Sample.product (Some Sample.profile))))
  /\ Options.fallback_image_url Sample.options = Sample.fallbackUrl
  /\ generateImage Sample.imageDown Sample.beforeImage
     = Js.Fulfilled
         (Update.of_error
            "Image generation failed: BFL API error: 500 Internal Server Error - Internal Server Error")
  /\ (forall creative,
        State.creative
          (merge Sample.beforeImage
             (Update.of_error
                "Image generation failed: BFL API error: 500 Internal Server Error - Internal Server Error"))
        <> Some creative)
  /\ State.status
       (merge Sample.beforeImage
          (Update.of_error
             "Image generation failed: BFL API error: 500 Internal Server Error - Internal Server Error"))
     <> "fallback"
  /\ Server.answer
       (Js.Fulfilled
          (merge Sample.beforeImage
             (Update.of_error
                "Image generation failed: BFL API error: 500 Internal Server Error - Internal Server Error")))
     = {| Server.code := 500; Server.success := None;
          Server.creative := None; Server.persona := None;
          Server.status := Some "error"; Server.warning := None;
          Server.error :=
            Some "Image generation failed: BFL API error: 500 Internal Server Error - Internal Server Error" |}.
Proof.
  repeat split; try reflexivity; vm_compute; discriminate.
Qed.

(** C1, amended.  For every state in which the image-generation request
    fails (the provider answers with a non-success status or cannot be
    reached; profile, a product with its colorways, options and persona
    present, the image API key configured), [generateImage] returns only
    an ErrorState, whose message starts with
    ["Image generation failed: "].  Merged into the state, the update
    leaves the creative and the status as they were, so no Creative is
    emitted for the failed step and the status does not become
    ['fallback']; the outcome is the same whatever the options hold, the
    fallback image URL included.  For a result that holds this ErrorState
    and no creative, the route answers 500 with status ['error']. *)
Theorem image_failure_reports_error (env : Env.t) (s : State.t)
    (profile : Profile.t) (product : Product.t) (options : Options.t)
    (persona : PersonaType) (key : string) :
  State.profile s = Some profile ->
  State.product s = Some (Product.Complete product) ->
  State.options s = Some options ->
  State.persona s = Some persona ->
  Env.BFL_API_KEY env = Some key ->
  Js.truthy key = true ->
  remoteFailed
    (Env.fetch_bfl env
       (imageRequest key (createBFLPrompt persona product (Some profile)))) ->
  exists reason,
    generateImage env s
    = Js.Fulfilled (Update.of_error ("Image generation failed: " ++ reason))
    /\ State.creative
         (merge s (Update.of_error ("Image generation failed: " ++ reason)))
       = State.creative s
    /\ State.status
         (merge s (Update.of_error ("Image generation failed: " ++ reason)))
       = State.status s
    /\ (forall options',
          generateImage env
            {| State.profile := State.profile s;
               State.product := State.product s;
               State.options := Some options';
               State.creative := State.creative s;
               State.persona := State.persona s;
               State.error := State.error s;
               State.status := State.status s |}
          = generateImage env s)
    /\ (State.creative s = None ->
        Server.answer
          (Js.Fulfilled
             (merge s (Update.of_error ("Image generation failed: " ++ reason))))
        = {| Server.code := 500; Server.success := None;
             Server.creative := None; Server.persona := None;
             Server.status := Some "error"; Server.warning := None;
             Server.error := Some ("Image generation failed: " ++ reason) |}).
Proof.
  intros Hprofile Hproduct Hoptions Hpersona Hkey Htruthy Hfailed.
  destruct (generateImage_remote_failure env s profile product options persona
              key Hprofile Hproduct Hoptions Hpersona Hkey Htruthy Hfailed)
    as [reason Hrun].
  exists reason. split; [exact Hrun |].
  split; [reflexivity |]. split; [reflexivity |]. split.
  - intros options'. apply generateImage_options; simpl; eauto.
  - intros Hnone. rewrite merge_of_error. unfold Server.answer. simpl.
    rewrite Hnone. reflexivity.
Qed.

Lemma image_failure_reports_error_witness :
  exists reason,
    generateImage Sample.imageDown Sample.beforeImage
    = Js.Fulfilled (Update.of_error ("Image generation failed: " ++ reason))
    /\ State.creative
         (merge Sample.beforeImage
            (Update.of_error ("Image generation failed: " ++ reason)))
       = None.
Proof.
  destruct (image_failure_reports_error Sample.imageDown Sample.beforeImage
              Sample.profile Sample.product Sample.options Streetwear "bfl-key"
              eq_refl eq_refl eq_refl eq_refl eq_refl eq_refl eq_refl)
    as (reason & Hrun & Hcreative & _).
  exists reason. split; [exact Hrun | exact Hcreative].
Defined.

(** C5, at a copy request that fails after the image step succeeded.  The
    image provider accepts the job and the copy provider answers 500.
    [generateImage] stores the image-bearing creative, [generateCopy]
    returns an ErrorState, and for the state the two updates give the
    route delivers the creative with an empty copy and the error as a
    warning; the status it reports is the status of the state,
    ['pending'], neither ['success'] nor ['fallback']: the route
    substitutes ['fallback'] only for an empty status, and the channel
    holds its default. *)
Theorem copy_failure_reports_pending :
  generateImage Sample.copyDown Sample.beforeImage
  = Js.Fulfilled (Update.of_creative Sample.pendingCreative)
  /\ merge Sample.beforeImage (Update.of_creative Sample.pendingCreative)
     = Sample.beforeCopy
  /\ generateCopy Sample.copyDown Sample.beforeCopy
     = Js.Fulfilled
         (Update.of_error
            "Copy generation failed: OpenAI API error: 500 Internal Server Error - Internal Server Error")
  /\ Server.answer
       (Js.Fulfilled
          (merge Sample.beforeCopy
             (Update.of_error
                "Copy generation failed: OpenAI API error: 500 Internal Server Error - Internal Server Error")))
     = {| Server.code := 200; Server.success := Some true;
          Server.creative := Some Sample.pendingCreative;
          Server.persona := Some Streetwear;
          Server.status := Some "pending";
          Server.warning :=
            Some "Copy generation failed: OpenAI API error: 500 Internal Server Error - Internal Server Error";
          Server.error := None |}
  /\ CreativeContent.copy Sample.pendingCreative = ""
  /\ Server.status
       (Server.answer
          (Js.Fulfilled
             (merge Sample.beforeCopy
                (Update.of_error
                   "Copy generation failed: OpenAI API error: 500 Internal Server Error - Internal Server Error"))))
     <> Some "success"
  /\ Server.status
       (Server.answer
          (Js.Fulfilled
             (merge Sample.beforeCopy
                (Update.of_error
                   "Copy generation failed: OpenAI API error: 500 Internal Server Error - Internal Server Error"))))
     <> Some "fallback".
Proof.
  repeat split; try reflexivity; vm_compute; discriminate.
Qed.

(** C9, as stated, fails.  For a request without a profile the route
    answers 400 with an error message and no status, whatever the
    workflow would return; and [inferPersona], run on a state without a
    profile, returns an ErrorState that leaves the status ['pending'],
    not ['error']. *)
Lemma missing_profile_status_not_error :
  Server.generateCreative (fun _ => Js.Rejected Js.OtherValue)
    Sample.requestWithoutProfile
  = {| Server.code := 400; Server.success := None;
       Server.creative := None; Server.persona := None;
       Server.status := None; Server.warning := None;
       Server.error :=
         Some "Missing required fields: profile and product are required" |}
  /\ Server.status
       (Server.generateCreative (fun _ => Js.Rejected Js.OtherValue)
          Sample.requestWithoutProfile)
     <> Some "error"
  /\ inferPersona (merge State.initial (workflowInput None None None))
     = Js.Fulfilled
         (Update.of_error "Missing required data for persona inference")
  /\ State.status
       (merge (merge State.initial (workflowInput None None None))
          (Update.of_error "Missing required data for persona inference"))
     = "pending"
  /\ State.status
       (merge (merge State.initial (workflowInput None None None))
          (Update.of_error "Missing required data for persona inference"))
     <> "error".
Proof.
  repeat split; try reflexivity; vm_compute; discriminate.
Qed.

(** C9, amended.  For every request that is missing the profile or the
    product, whatever else it carries, the route answers 400 with the
    message ["Missing required fields: profile and product are
    required"], no status and no creative, without calling the workflow.
    For every state that is missing the profile or the product, whatever
    its other channels hold, each of [inferPersona], [generateImage] and
    [generateCopy] returns only an ErrorState ("Missing required data for
    ...", with a retry count of 0) and contacts no provider; merged into
    the state, the ErrorState leaves creative, persona and status as they
    were. *)
Theorem missing_input_is_rejected (env : Env.t)
    (graph : Update.t -> Js.outcome State.t) (req : Server.body)
    (s : State.t) :
  (Server.body_profile req = None \/ Server.body_product req = None ->
   Server.generateCreative graph req
   = {| Server.code := 400; Server.success := None;
        Server.creative := None; Server.persona := None;
        Server.status := None; Server.warning := None;
        Server.error :=
          Some "Missing required fields: profile and product are required" |})
  /\ (State.profile s = None \/ State.product s = None ->
      inferPersona s
      = Js.Fulfilled
          (Update.of_error "Missing required data for persona inference")
      /\ generateImage env s
         = Js.Fulfilled
             (Update.of_error "Missing required data for image generation")
      /\ generateCopy env s
         = Js.Fulfilled
             (Update.of_error "Missing required data for copy generation"))
  /\ (forall msg,
        State.error (merge s (Update.of_error msg))
        = Some {| ErrorState.error := Some msg; ErrorState.retry_count := 0 |}
        /\ State.creative (merge s (Update.of_error msg)) = State.creative s
        /\ State.persona (merge s (Update.of_error msg)) = State.persona s
        /\ State.status (merge s (Update.of_error msg)) = State.status s).
Proof.
  split.
  - unfold Server.generateCreative.
    intros [-> | ->]; [reflexivity |].
    destruct (Server.body_profile req); reflexivity.
  - split.
    + intros Hmissing. split; [exact (inferPersona_missing_input s Hmissing) |].
      split; [exact (generateImage_missing_input env s Hmissing) |].
      exact (generateCopy_missing_input env s Hmissing).
    + intros msg. repeat split.
Qed.

(** ** Every answer of [POST /api/generate-creative] *)


(** ** Polling the regional endpoints *)

Section PollLoop.
Variable fetch : string -> Js.outcome (Http.response (option Poll.data)).

Lemma poll_loop_contacted (urls : list string) :
  forall vars : Server.poll_vars,
    Server.contacted (Server.poll_loop fetch urls vars)
    = (Server.contacted vars ++ PollSpec.upToFirstSuccess fetch urls)%list.
Proof.
  induction urls as [| url rest IH]; intros vars; simpl.
  - rewrite app_nil_r. reflexivity.
  - unfold PollSpec.failureOf.
    destruct (fetch url) as [r | e]; [destruct (Http.ok r) |];
      try rewrite IH; simpl; try rewrite <- app_assoc; reflexivity.
Qed.

Lemma poll_loop_first_success (urls : list string) (r : Http.response (option Poll.data)) :
  forall vars : Server.poll_vars,
    PollSpec.firstSuccess fetch urls = Some r ->
    Server.response (Server.poll_loop fetch urls vars) = Some r
    /\ Http.ok r = true.
Proof.
  induction urls as [| url rest IH]; intros vars; simpl; [discriminate |].
  destruct (fetch url) as [r' | e]; [destruct (Http.ok r') eqn:Hok |].
  - intros [= ->]. split; [reflexivity | exact Hok].
  - apply IH.
  - apply IH.
Qed.

Lemma poll_loop_all_failed (urls : list string) :
  forall vars : Server.poll_vars,
    PollSpec.firstSuccess fetch urls = None ->
    match Server.response vars with
    | Some r => Http.ok r = false
    | None => True
    end ->
    match Server.response (Server.poll_loop fetch urls vars) with
    | Some r => Http.ok r = false
    | None => True
    end
    /\ Server.lastError (Server.poll_loop fetch urls vars)
       = match PollSpec.mostRecentException fetch urls with
         | Some e => Some e
         | None => Server.lastError vars
         end
    /\ PollSpec.upToFirstSuccess fetch urls = urls.
Proof.
  unfold PollSpec.mostRecentException.
  induction urls as [| url rest IH]; intros vars; simpl; [auto |].
  unfold PollSpec.failureOf.
  destruct (fetch url) as [r | e] eqn:Hfetch;
    [destruct (Http.ok r) eqn:Hok; [discriminate |] |];
    intros Hnone Hvars.
  - destruct (IH {| Server.response := Some r;
                    Server.lastError := Server.lastError vars;
                    Server.contacted := (Server.contacted vars ++ [url])%list |}
                Hnone Hok) as (Hresponse & Hlast & Hall).
    repeat split; [exact Hresponse | exact Hlast | congruence].
  - destruct (IH {| Server.response := Server.response vars;
                    Server.lastError := Some e;
                    Server.contacted := (Server.contacted vars ++ [url])%list |}
                Hnone Hvars) as (Hresponse & Hlast & Hall).
    repeat split; [exact Hresponse | | congruence].
    rewrite Hlast, last_cons. simpl.
    destruct (last _); reflexivity.
Qed.

(** The contacted endpoints are a prefix of the list. *)
Lemma upToFirstSuccess_prefix (urls : list string) :
  PollSpec.upToFirstSuccess fetch urls `prefix_of` urls.
Proof.
  induction urls as [| url rest IH]; simpl; [apply prefix_nil |].
  destruct (PollSpec.failureOf (fetch url)).
  - apply prefix_cons, IH.
  - apply prefix_cons, prefix_nil.
Qed.

(** When an endpoint succeeds, the contacted endpoints are the failed ones
    before it and the endpoint itself. *)
Lemma upToFirstSuccess_ends_at_success (urls : list string)
    (r : Http.response (option Poll.data)) :
  PollSpec.firstSuccess fetch urls = Some r ->
  exists before url after,
    urls = (before ++ url :: after)%list
    /\ PollSpec.upToFirstSuccess fetch urls = (before ++ [url])%list
    /\ fetch url = Js.Fulfilled r
    /\ Forall (fun u => PollSpec.failureOf (fetch u) <> None) before.
Proof.
  induction urls as [| url rest IH]; simpl; [discriminate |].
  unfold PollSpec.failureOf at 1.
  destruct (fetch url) as [r' | e] eqn:Hfetch;
    [destruct (Http.ok r') eqn:Hok |].
  - intros [= ->]. exists [], url, rest.
    repeat split; [exact Hfetch | constructor].
  - intros Hrest. destruct (IH Hrest) as (before & u & after & -> & -> & Hu & Hbefore).
    exists (url :: before), u, after. repeat split; [exact Hu |].
    constructor; [| exact Hbefore].
    unfold PollSpec.failureOf. rewrite Hfetch, Hok. discriminate.
  - intros Hrest. destruct (IH Hrest) as (before & u & after & -> & -> & Hu & Hbefore).
    exists (url :: before), u, after. repeat split; [exact Hu |].
    constructor; [| exact Hbefore].
    unfold PollSpec.failureOf. rewrite Hfetch. discriminate.
Qed.

End PollLoop.

(** C4, as stated, fails where it says the error carries the most recent
    underlying error.  When all three mirrors answer 500, every endpoint
    has failed and the most recent failure is the 500 of [us1], but the
    handler has recorded no error and reports ["Unknown error"].  When
    [eu2] cannot be reached and [eu4] and [us1] answer 500 and 503, the
    most recent failure is the 503 of [us1], but the error carried is the
    exception of [eu2], the first endpoint. *)
Lemma poll_error_not_most_recent :
  PollSpec.firstSuccess (Server.pollFetch Sample.imageDown)
    (Server.endpoints "req-1") = None
  /\ PollSpec.mostRecentFailure (Server.pollFetch Sample.imageDown)
       (Server.endpoints "req-1")
     = Some (PollSpec.BadStatus 500)
  /\ Server.lastError (fst (Server.pollImage Sample.imageDown "req-1")) = None
  /\ Server.poll_error (snd (Server.pollImage Sample.imageDown "req-1"))
     = Some "All polling endpoints failed. Last error: Unknown error"
  /\ PollSpec.firstSuccess (Server.pollFetch Sample.mirrorsFailing)
       (Server.endpoints "req-1") = None
  /\ PollSpec.mostRecentFailure (Server.pollFetch Sample.mirrorsFailing)
       (Server.endpoints "req-1")
     = Some (PollSpec.BadStatus 503)
  /\ Server.lastError (fst (Server.pollImage Sample.mirrorsFailing "req-1"))
     = Some (Js.ErrorObject "connect ECONNREFUSED")
  /\ PollSpec.Unreachable
       <$> Server.lastError (fst (Server.pollImage Sample.mirrorsFailing "req-1"))
     <> PollSpec.mostRecentFailure (Server.pollFetch Sample.mirrorsFailing)
          (Server.endpoints "req-1").
Proof.
  repeat split; try (vm_compute; reflexivity).
  vm_compute. discriminate.
Qed.

(** C4, amended.  The poll route tries the endpoints in the fixed order
    eu2, eu4, us1.  The endpoints it contacts are a prefix of that list;
    when some endpoint answers with a success status, the first such
    endpoint is the last one contacted and its response is the one the
    reply is built from; when none does, all three are contacted and the
    reply is the all-endpoints-failed error (500, status ['error']), whose
    message carries the message of the most recent exception raised by a
    [fetch], or ["Unknown error"] when no [fetch] raised one: a
    non-success status is not recorded as an error. *)
Theorem pollImage_first_success_wins (env : Env.t) (requestId : string) :
  Server.endpoints requestId
  = [ "https://api.eu2.bfl.ai/v1/get_result?id=" ++ requestId;
      "https://api.eu4.bfl.ai/v1/get_result?id=" ++ requestId;
      "https://api.us1.bfl.ai/v1/get_result?id=" ++ requestId ]
  /\ Server.contacted (fst (Server.pollImage env requestId))
     = PollSpec.upToFirstSuccess (Server.pollFetch env)
         (Server.endpoints requestId)
  /\ Server.contacted (fst (Server.pollImage env requestId))
     `prefix_of` Server.endpoints requestId
  /\ (forall r,
        PollSpec.firstSuccess (Server.pollFetch env) (Server.endpoints requestId)
        = Some r ->
        Http.ok r = true
        /\ Server.response (fst (Server.pollImage env requestId)) = Some r
        /\ (exists before url after,
              Server.endpoints requestId = (before ++ url :: after)%list
              /\ Server.contacted (fst (Server.pollImage env requestId))
                 = (before ++ [url])%list
              /\ Server.pollFetch env url = Js.Fulfilled r
              /\ Forall
                   (fun u => PollSpec.failureOf (Server.pollFetch env u) <> None)
                   before)
        /\ (forall data,
              Http.json r = Js.Fulfilled (Some data) ->
              snd (Server.pollImage env requestId)
              = {| Server.poll_code := 200;
                   Server.poll_status := Poll.status data;
                   Server.poll_result := Poll.result data;
                   Server.poll_error := Poll.error data |}))
  /\ (PollSpec.firstSuccess (Server.pollFetch env) (Server.endpoints requestId)
      = None ->
      Server.contacted (fst (Server.pollImage env requestId))
      = Server.endpoints requestId
      /\ snd (Server.pollImage env requestId)
         = {| Server.poll_code := 500;
              Server.poll_status := Some "error";
              Server.poll_result := None;
              Server.poll_error :=
                Some ("All polling endpoints failed. Last error: "
                      ++ match PollSpec.mostRecentException
                                 (Server.pollFetch env)
                                 (Server.endpoints requestId) with
                         | Some e => Js.message_or_unknown e
                         | None => "Unknown error"
                         end) |}).
Proof.
  set (fetch := Server.pollFetch env).
  set (urls := Server.endpoints requestId).
  set (vars0 := {| Server.response := None; Server.lastError := None;
                   Server.contacted := [] |}).
  assert (Server.contacted (fst (Server.pollImage env requestId))
          = PollSpec.upToFirstSuccess fetch urls) as Hcontacted.
  { unfold Server.pollImage. cbn [fst].
    apply (poll_loop_contacted fetch urls vars0). }
  split; [reflexivity |].
  split; [exact Hcontacted |].
  split; [rewrite Hcontacted; apply upToFirstSuccess_prefix |].
  split.
  - intros r Hfirst.
    destruct (poll_loop_first_success fetch urls r vars0 Hfirst)
      as [Hresponse Hok].
    split; [exact Hok |].
    split; [exact Hresponse |].
    split.
    + rewrite Hcontacted.
      apply upToFirstSuccess_ends_at_success. exact Hfirst.
    + intros data Hjson. unfold Server.pollImage. cbn [snd].
      fold fetch urls vars0. rewrite Hresponse, Hok, Hjson. reflexivity.
  - intros Hnone.
    destruct (poll_loop_all_failed fetch urls vars0 Hnone I)
      as (Hresponse & Hlast & Hall).
    split; [rewrite Hcontacted; exact Hall |].
    unfold Server.pollImage. cbn [snd]. fold fetch urls vars0.
    cbn [Server.lastError vars0] in Hlast.
    assert (Server.lastErrorMessage
              (Server.lastError (Server.poll_loop fetch urls vars0))
            = match PollSpec.mostRecentException fetch urls with
              | Some e => Js.message_or_unknown e
              | None => "Unknown error"
              end) as Hmessage.
    { rewrite Hlast. destruct (PollSpec.mostRecentException fetch urls);
        reflexivity. }
    destruct (Server.response (Server.poll_loop fetch urls vars0)) as [r |].
    + rewrite Hresponse. unfold Server.allEndpointsFailed.
      rewrite Hmessage. reflexivity.
    + unfold Server.allEndpointsFailed. rewrite Hmessage. reflexivity.
Qed.

(** ** What makes a node throw *)

(** A node throws only at one of its four statements outside a [try]
    block: the two checks of the API keys, the read of [.split] on a
    missing age range, and the read of [.join] on missing colorways.  No
    failure of a provider call (unreachable, a non-success status, a body
    that cannot be read) makes a node throw. *)
Theorem nodes_throw_only_outside_try (env : Env.t) (n : node) (s : State.t)
    (e : Js.thrown) :
  run_node env n s = Js.Rejected e -> nodeThrows env s n e.
Proof.
  destruct n; simpl; [| | | discriminate | discriminate].
  - unfold inferPersona.
    destruct (State.profile s) as [p |] eqn:Hp; [| discriminate].
    destruct (State.product s) as [q |]; [| discriminate].
    repeat (case_decide; [discriminate |]).
    destruct (Profile.age_range p) eqn:Hage; [discriminate |].
    intros [= <-]. exact (throws_age_range env s p Hp Hage).
  - unfold generateImage.
    destruct (State.profile s) as [profile |]; [| discriminate].
    destruct (State.product s) as [[product | t b] |] eqn:Hproduct;
      [| | discriminate].
    + destruct (State.options s) as [options |]; [| discriminate].
      destruct (State.persona s) as [persona |]; [| discriminate].
      destruct (Env.BFL_API_KEY env) as [key |] eqn:Hkey.
      * destruct (Js.truthy key) eqn:Htruthy.
        -- unfold Js.try_catch, mbind, outcome_bind, Js.bind.
           intros Hrun. repeat case_match; discriminate.
        -- intros [= <-]. apply throws_image_key. rewrite Hkey. exact Htruthy.
      * intros [= <-]. apply throws_image_key. rewrite Hkey. reflexivity.
    + destruct (State.options s) as [options |]; [| discriminate].
      destruct (State.persona s) as [persona |]; [| discriminate].
      destruct (Env.BFL_API_KEY env) as [key |] eqn:Hkey.
      * destruct (Js.truthy key) eqn:Htruthy.
        -- intros [= <-]. exact (throws_colorways env s t b Hproduct).
        -- intros [= <-]. apply throws_image_key. rewrite Hkey. exact Htruthy.
      * intros [= <-]. apply throws_image_key. rewrite Hkey. reflexivity.
  - unfold generateCopy.
    destruct (State.profile s) as [profile |]; [| discriminate].
    destruct (State.product s) as [product |]; [| discriminate].
    destruct (State.persona s) as [persona |]; [| discriminate].
    destruct (State.creative s) as [creative |]; [| discriminate].
    destruct (Env.OPENAI_API_KEY env) as [key |] eqn:Hkey.
    + destruct (Js.truthy key) eqn:Htruthy.
      * unfold Js.try_catch, mbind, outcome_bind, Js.bind.
        intros Hrun. repeat case_match; discriminate.
      * intros [= <-]. apply throws_copy_key. rewrite Hkey. exact Htruthy.
    + intros [= <-]. apply throws_copy_key. rewrite Hkey. reflexivity.
Qed.

Lemma nodes_throw_only_outside_try_witness :
  nodeThrows Sample.allUp Sample.withoutColorways n_generateImage
    (Js.ErrorObject joinTypeError).
Proof.
  apply (nodes_throw_only_outside_try Sample.allUp n_generateImage
           Sample.withoutColorways).
  reflexivity.
Defined.

(** ** What the nodes store *)

(** The copy step stores a creative only when the state has a persona,
    and the copy it stores is never empty. *)
Lemma generateCopy_creative (env : Env.t) (s : State.t)
    (c : CreativeContent.t) :
  generateCopy env s = Js.Fulfilled (Update.of_creative c) ->
  is_Some (State.persona s) /\ Js.truthy (CreativeContent.copy c) = true.
Proof.
  unfold generateCopy, Js.try_catch, mbind, outcome_bind, Js.bind.
  intros Hrun. repeat case_match; simplify_eq.
  split; [eauto |]. simpl. apply or_else_truthy. reflexivity.
Qed.

(** The image step stores a creative only when the state has a persona;
    the creative has a non-empty image URL and an empty copy. *)
Lemma generateImage_creative (env : Env.t) (s : State.t)
    (c : CreativeContent.t) :
  generateImage env s = Js.Fulfilled (Update.of_creative c) ->
  State.persona s = Some (CreativeContent.persona c)
  /\ Js.truthy_opt (CreativeContent.image_url c) = true
  /\ CreativeContent.copy c = "".
Proof.
  unfold generateImage, Js.try_catch, mbind, outcome_bind, Js.bind.
  intros Hrun. repeat case_match; simplify_eq.
  split; [reflexivity |]. split; [| reflexivity].
  simpl. apply or_else_truthy. reflexivity.
Qed.

(** ** Profiles without an age range *)

Lemma inferPersona_without_age_range (s : State.t) (p : Profile.t)
    (q : Product.payload) :
  State.profile s = Some p ->
  State.product s = Some q ->
  Profile.age_range p = None ->
  inferPersona s = Js.Rejected (Js.ErrorObject splitTypeError).
Proof.
  intros Hp Hq Hage. unfold inferPersona. rewrite Hp, Hq, Hage.
  repeat (case_decide as Hrule; [destruct Hrule; discriminate |]).
  reflexivity.
Qed.

(** C3, at a profile without an age range.  The demographic hints of a
    profile are optional, and the demo page of the server sends a profile
    without them.  The claim has the classifier return a persona for
    every profile; for a profile without [age_range], with profile and
    product present, no rule matches, the classifier reads [.split] on
    the missing value, and the node throws a [TypeError] instead of
    returning a persona, whatever the other hints are. *)
Theorem inferPersona_throws_without_age_range (s : State.t) (p : Profile.t)
    (q : Product.payload) :
  State.profile s = Some p ->
  State.product s = Some q ->
  Profile.age_range p = None ->
  inferPersona s
  = Js.Rejected
      (Js.ErrorObject "Cannot read properties of undefined (reading 'split')")
  /\ (forall u, inferPersona s <> Js.Fulfilled u).
Proof.
  intros Hp Hq Hage.
  pose proof (inferPersona_without_age_range s p q Hp Hq Hage) as Hrun.
  split; [exact Hrun |]. intros u. rewrite Hrun. discriminate.
Qed.

Lemma inferPersona_throws_without_age_range_witness :
  State.profile Sample.demoRequestState = Some Sample.bareProfile
  /\ inferPersona Sample.demoRequestState
     = Js.Rejected
         (Js.ErrorObject "Cannot read properties of undefined (reading 'split')").
Proof.
  split; [reflexivity |].
  exact (proj1 (inferPersona_throws_without_age_range Sample.demoRequestState
                  Sample.bareProfile (Product.Complete Sample.product)
                  eq_refl eq_refl eq_refl)).
Defined.

(** The profile the sheet route builds from a row has the eight declared
    properties and no age range: on every state that holds such a profile
    and a product, whatever the row contains, [inferPersona] throws. *)
Theorem inferPersona_throws_on_sheet_rows (now : N) (i : nat) (r : Csv.row)
    (s : State.t) (q : Product.payload) :
  State.profile s = Some (Csv.rowProfile now i r) ->
  State.product s = Some q ->
  Profile.age_range (Csv.rowProfile now i r) = None
  /\ inferPersona s = Js.Rejected (Js.ErrorObject splitTypeError).
Proof.
  intros Hp Hq. split; [reflexivity |].
  exact (inferPersona_without_age_range s _ q Hp Hq eq_refl).
Qed.

Lemma inferPersona_throws_on_sheet_rows_witness :
  inferPersona Sample.kenRowState
  = Js.Rejected (Js.ErrorObject splitTypeError).
Proof.
  exact (proj2 (inferPersona_throws_on_sheet_rows 1700000000000 1
                  Sample.kenRow Sample.kenRowState
                  (Product.Complete Csv.demoProduct) eq_refl eq_refl)).
Defined.

(** ** The sheet route *)

(** A request without a file is refused before anything is read; a sheet
    that cannot be parsed, or a file that cannot be deleted afterwards,
    turns the whole answer into a 500 with that error's message, the
    rows' results being dropped. *)
Theorem processCsv_failures (graph : Update.t -> Js.outcome State.t)
    (clock : nat -> N) :
  Csv.processCsv graph clock None
  = Csv.failure 400 "No CSV file uploaded" None
  /\ (forall file msg,
        Csv.parse file = Js.Rejected (Js.ErrorObject msg) ->
        Csv.processCsv graph clock (Some file)
        = Csv.failure 500 msg (Some "error"))
  /\ (forall file rows msg,
        Csv.parse file = Js.Fulfilled rows ->
        Csv.unlink file = Js.Rejected (Js.ErrorObject msg) ->
        Csv.processCsv graph clock (Some file)
        = Csv.failure 500 msg (Some "error")).
Proof.
  split; [reflexivity |]. split.
  - intros file msg Hparse. unfold Csv.processCsv.
    rewrite Hparse. reflexivity.
  - intros file rows msg Hparse Hunlink. unfold Csv.processCsv.
    rewrite Hparse. unfold mbind, outcome_bind, Js.bind.
    destruct (Csv.processRows graph clock 0 rows [] []).
    rewrite Hunlink. reflexivity.
Qed.





(** ** What the options change *)

(** Of the options, the nodes read the copy tone and nothing else.  On
    two states that differ at most in the other properties of their
    options (aspect, channel, fallback image URL, variant), every node
    does the same: it throws the same exception on both, or it returns on
    both, and the merged states again differ at most in those
    properties. *)
Theorem nodes_ignore_options (env : Env.t) (n : node) (s s' : State.t) :
  sameButOptions s s' ->
  match run_node env n s, run_node env n s' with
  | Js.Fulfilled u, Js.Fulfilled u' =>
      sameButOptions (merge s u) (merge s' u')
  | Js.Rejected e, Js.Rejected e' => e = e'
  | _, _ => False
  end.
Proof.
  intros Hsame.
  assert (forall u, node_update u ->
                    sameButOptions (merge s u) (merge s' u)) as Hmerge.
  { destruct Hsame as (Hpf & Hpd & Hcr & Hps & Her & Hst & Hop).
    intros u [msg | p | c]; unfold sameButOptions; simpl;
      rewrite ?Hpf, ?Hpd, ?Hcr, ?Hps, ?Her, ?Hst; repeat split; exact Hop. }
  destruct n; cbn [run_node].
  - assert (inferPersona s' = inferPersona s) as ->.
    { destruct Hsame as (Hpf & Hpd & _).
      unfold inferPersona. rewrite Hpf, Hpd. reflexivity. }
    destruct (inferPersona s) as [u | e] eqn:Hnode; [| reflexivity].
    apply Hmerge. exact (inferPersona_update s u Hnode).
  - assert (generateImage env s' = generateImage env s) as ->.
    { destruct Hsame as (Hpf & Hpd & _ & Hps & _ & _ & Hop).
      unfold generateImage. rewrite Hpf, Hpd, Hps.
      destruct (State.options s), (State.options s'); try contradiction;
        reflexivity. }
    destruct (generateImage env s) as [u | e] eqn:Hnode; [| reflexivity].
    apply Hmerge. exact (generateImage_update env s u Hnode).
  - assert (generateCopy env s' = generateCopy env s) as ->.
    { destruct Hsame as (Hpf & Hpd & Hcr & Hps & _ & _ & Hop).
      unfold generateCopy, copyRequest. rewrite Hpf, Hpd, Hcr, Hps.
      destruct (State.options s), (State.options s'); try contradiction;
        simpl; rewrite ?Hop; reflexivity. }
    destruct (generateCopy env s) as [u | e] eqn:Hnode; [| reflexivity].
    apply Hmerge. exact (generateCopy_update env s u Hnode).
  - destruct Hsame as (Hpf & Hpd & Hcr & Hps & Her & Hst & Hop).
    unfold sameButOptions; simpl.
    rewrite ?Hpf, ?Hpd, ?Hcr, ?Hps, ?Her, ?Hst. repeat split. exact Hop.
  - rewrite !merge_of_state. exact Hsame.
Qed.

Lemma nodes_ignore_options_witness :
  match run_node Sample.imageDown n_generateImage Sample.beforeImage,
        run_node Sample.imageDown n_generateImage Sample.beforeImageOtherOptions
  with
  | Js.Fulfilled u, Js.Fulfilled u' =>
      sameButOptions (merge Sample.beforeImage u)
        (merge Sample.beforeImageOtherOptions u')
  | Js.Rejected e, Js.Rejected e' => e = e'
  | _, _ => False
  end.
Proof.
  apply (nodes_ignore_options Sample.imageDown n_generateImage
           Sample.beforeImage Sample.beforeImageOtherOptions).
  repeat split.
Defined.

(** ** Splitting the list cells of a sheet *)

Section Split.
Variable sep : ascii.

Lemma split_not_nil (s : string) : Csv.split sep s <> [].
Proof.
  destruct s as [| c rest]; simpl; [discriminate |].
  destruct (Ascii.eqb c sep); [discriminate |].
  destruct (Csv.split sep rest); discriminate.
Qed.

Lemma split_app (a b : string) :
  Csv.split sep (a ++ String sep b)
  = (Csv.split sep a ++ Csv.split sep b)%list.
Proof.
  induction a as [| c rest IH]; simpl.
  - rewrite Ascii.eqb_refl. reflexivity.
  - destruct (Ascii.eqb c sep); [rewrite IH; reflexivity |].
    rewrite IH.
    destruct (Csv.split sep rest) as [| first others] eqn:Hrest;
      [exfalso; exact (split_not_nil rest Hrest) | reflexivity].
Qed.

Lemma split_free (x : string) :
  sep ∉ list_ascii_of_string x -> Csv.split sep x = [x].
Proof.
  induction x as [| c rest IH]; simpl; [reflexivity |].
  intros Hfree. apply not_elem_of_cons in Hfree as [Hc Hrest].
  destruct (Ascii.eqb_spec c sep) as [-> | _]; [contradiction |].
  rewrite (IH Hrest). reflexivity.
Qed.

Lemma split_items_free (s : string) :
  forall x : string, x ∈ Csv.split sep s -> sep ∉ list_ascii_of_string x.
Proof.
  induction s as [| c rest IH]; simpl; intros x Hx.
  - apply list_elem_of_singleton in Hx as ->. simpl. apply not_elem_of_nil.
  - destruct (Ascii.eqb_spec c sep) as [-> | Hc].
    + apply elem_of_cons in Hx as [-> | Hx];
        [simpl; apply not_elem_of_nil | exact (IH x Hx)].
    + destruct (Csv.split sep rest) as [| first others] eqn:Hrest.
      * apply list_elem_of_singleton in Hx as ->. simpl.
        apply not_elem_of_cons. split; [congruence | apply not_elem_of_nil].
      * apply elem_of_cons in Hx as [-> | Hx].
        -- simpl. apply not_elem_of_cons. split; [congruence |].
           apply IH. left.
        -- apply IH. right. exact Hx.
Qed.

Lemma trim_start_free (x : string) :
  sep ∉ list_ascii_of_string x ->
  sep ∉ list_ascii_of_string (Js.trim_start x).
Proof.
  induction x as [| c rest IH]; simpl; [auto |].
  intros Hfree. destruct (Js.is_white_space c); [| exact Hfree].
  apply IH. apply not_elem_of_cons in Hfree as [_ Hrest]. exact Hrest.
Qed.

Lemma trim_end_free (x : string) :
  sep ∉ list_ascii_of_string x ->
  sep ∉ list_ascii_of_string (Csv.trim_end x).
Proof.
  induction x as [| c rest IH]; simpl; [auto |].
  intros Hfree. apply not_elem_of_cons in Hfree as [Hc Hrest].
  specialize (IH Hrest).
  destruct (Csv.trim_end rest) as [| c' rest'].
  - destruct (Js.is_white_space c); simpl;
      [apply not_elem_of_nil |].
    apply not_elem_of_cons. split; [exact Hc | apply not_elem_of_nil].
  - change (sep ∉ c :: list_ascii_of_string (String c' rest')).
    apply not_elem_of_cons. split; [exact Hc | exact IH].
Qed.

End Split.

Lemma trim_start_length (s : string) :
  String.length (Js.trim_start s) <= String.length s.
Proof.
  induction s as [| c rest IH]; simpl; [lia |].
  destruct (Js.is_white_space c); simpl; lia.
Qed.

Lemma trim_start_idem (s : string) :
  Js.trim_start (Js.trim_start s) = Js.trim_start s.
Proof.
  induction s as [| c rest IH]; simpl; [reflexivity |].
  destruct (Js.is_white_space c) eqn:Hc; [exact IH |].
  simpl. rewrite Hc. reflexivity.
Qed.

Lemma trim_end_idem (s : string) :
  Csv.trim_end (Csv.trim_end s) = Csv.trim_end s.
Proof.
  induction s as [| c rest IH]; simpl; [reflexivity |].
  destruct (Csv.trim_end rest) as [| c' rest'] eqn:Hrest.
  - destruct (Js.is_white_space c) eqn:Hc; simpl; [reflexivity |].
    rewrite Hc. reflexivity.
  - change (Csv.trim_end (String c (String c' rest')))
      with (match Csv.trim_end (String c' rest') with
            | EmptyString =>
                if Js.is_white_space c then EmptyString
                else String c EmptyString
            | String c'' rest'' => String c (String c'' rest'')
            end).
    rewrite IH. reflexivity.
Qed.

Lemma trim_start_fixed (s : string) :
  Js.trim_start s = s ->
  s = "" \/ exists c rest, s = String c rest /\ Js.is_white_space c = false.
Proof.
  destruct s as [| c rest]; [auto |]. simpl.
  destruct (Js.is_white_space c) eqn:Hc; [| eauto].
  intros Hfixed. pose proof (trim_start_length rest) as Hlen.
  rewrite Hfixed in Hlen. simpl in Hlen. lia.
Qed.

Lemma trim_start_trim_end (s : string) :
  Js.trim_start s = s ->
  Js.trim_start (Csv.trim_end s) = Csv.trim_end s.
Proof.
  intros Hfixed.
  destruct (trim_start_fixed s Hfixed) as [-> | (c & rest & -> & Hc)];
    [reflexivity |].
  simpl. destruct (Csv.trim_end rest); rewrite ?Hc; simpl; rewrite ?Hc;
    reflexivity.
Qed.

Lemma splitString_Some (s : string) :
  Csv.splitString (Some s)
  = filter (fun item => (0 <? String.length item)%nat)
      (map Csv.trim (Csv.split ";" s)).
Proof.
  unfold Csv.splitString.
  destruct (Js.truthy s) eqn:Htruthy; [reflexivity |].
  apply truthy_nonempty in Htruthy. subst s. reflexivity.
Qed.

(** Every item [splitString] returns is clean: it is not empty, has no
    white space at either end and holds no semicolon; and a cell that is
    absent or empty gives no item. *)
Theorem splitString_items_clean (str : option string) :
  (forall item, item ∈ Csv.splitString str -> cleanItem item)
  /\ Csv.splitString None = []
  /\ Csv.splitString (Some "") = [].
Proof.
  split; [| split; reflexivity].
  destruct str as [s |]; [| intros item Hitem; inversion Hitem].
  rewrite splitString_Some. intros item Hitem.
  apply list_elem_of_filter in Hitem as [Hlen Hitem].
  apply list_elem_of_In, in_map_iff in Hitem as (raw & <- & Hraw).
  apply list_elem_of_In in Hraw.
  apply split_items_free in Hraw.
  unfold cleanItem, Csv.trim in *. repeat split.
  - intros Hempty. rewrite Hempty in Hlen. exact Hlen.
  - apply trim_start_trim_end, trim_start_idem.
  - apply trim_end_idem.
  - apply trim_end_free, trim_start_free, Hraw.
Qed.

(** Splitting distributes over the semicolon: the items of [a;b] are the
    items of [a] followed by the items of [b]. *)
Theorem splitString_semicolon (a b : string) :
  Csv.splitString (Some (a ++ ";" ++ b))
  = (Csv.splitString (Some a) ++ Csv.splitString (Some b))%list.
Proof.
  rewrite !splitString_Some.
  change (a ++ ";" ++ b) with (a ++ String ";" b).
  rewrite split_app, map_app, filter_app. reflexivity.
Qed.

Lemma splitString_clean_item (item : string) :
  cleanItem item -> Csv.splitString (Some item) = [item].
Proof.
  intros (Hne & Hstart & Hend & Hfree).
  rewrite splitString_Some, (split_free _ _ Hfree). simpl.
  unfold Csv.trim. rewrite Hstart, Hend.
  rewrite filter_cons_True; [reflexivity |].
  destruct item; [contradiction | exact I].
Qed.

Lemma splitString_join_clean (items : list string) :
  Forall cleanItem items ->
  Csv.splitString (Some (Js.join ";" items)) = items.
Proof.
  unfold Js.join.
  induction items as [| item rest IH]; intros Hclean; [reflexivity |].
  apply Forall_cons in Hclean as [Hitem Hrest].
  destruct rest as [| item' rest'].
  - simpl. apply splitString_clean_item. exact Hitem.
  - change (String.concat ";" (item :: item' :: rest'))
      with (item ++ ";" ++ String.concat ";" (item' :: rest')).
    rewrite splitString_semicolon, (IH Hrest),
      (splitString_clean_item _ Hitem).
    reflexivity.
Qed.

(** Joining the items of a cell with semicolons and splitting the result
    gives the same items back. *)
Theorem splitString_join_round_trip (str : option string) :
  Csv.splitString (Some (Js.join ";" (Csv.splitString str)))
  = Csv.splitString str.
Proof.
  apply splitString_join_clean. apply Forall_forall.
  intros item Hitem.
  exact (proj1 (splitString_items_clean str) item Hitem).
Qed.

Example splitString_sheet_cells :
  Csv.splitString (Some "graffiti; urban") = ["graffiti"; "urban"]
  /\ Csv.splitString (Some "street;sneakers;") = ["street"; "sneakers"]
  /\ Csv.splitString (Some " ; ;") = [].
Proof. repeat split; vm_compute; reflexivity. Qed.

(** ** The persona of the listed age ranges *)

Ltac settle_rules :=
  repeat (let Hrule := fresh "Hrule" in
          case_decide as Hrule;
          [ first [ reflexivity
                  | exfalso; destruct Hrule as [? ?]; congruence ]
          | ]);
  first [ reflexivity
        | exfalso;
          match goal with
          | H : ~ (_ /\ _) |- _ => apply H; split; [reflexivity | assumption]
          end ].

(** Each of the four age ranges the rules list leaves one question open.
    ["18-25"] gives Streetwear whatever the gender (the lower bound 18 is
    below 30, so the first rule changes nothing); ["26-35"] gives
    Minimalist for ["Female"] and Streetwear otherwise; ["36-45"] gives
    LuxuryClassic for ["Premium"] and Minimalist otherwise; ["18-35"]
    gives Athleisure for ["Athleisure"] and Streetwear otherwise. *)
Theorem inferPersona_listed_age_ranges (s : State.t) (p : Profile.t)
    (q : Product.payload) :
  State.profile s = Some p ->
  State.product s = Some q ->
  (Profile.age_range p = Some "18-25" ->
   inferPersona s = Js.Fulfilled (Update.of_persona Streetwear))
  /\ (Profile.age_range p = Some "26-35" ->
      inferPersona s
      = Js.Fulfilled
          (Update.of_persona
             (if bool_decide (Profile.gender p = Some "Female")
              then Minimalist else Streetwear)))
  /\ (Profile.age_range p = Some "36-45" ->
      inferPersona s
      = Js.Fulfilled
          (Update.of_persona
             (if bool_decide (Profile.price_tier_demographics p = Some "Premium")
              then LuxuryClassic else Minimalist)))
  /\ (Profile.age_range p = Some "18-35" ->
      inferPersona s
      = Js.Fulfilled
          (Update.of_persona
             (if bool_decide (Profile.preferred_category p = Some "Athleisure")
              then Athleisure else Streetwear))).
Proof.
  intros Hp Hq. unfold inferPersona. rewrite Hp, Hq.
  repeat split; intros Hage; rewrite Hage.
  - settle_rules.
  - case_bool_decide as Hhint; settle_rules.
  - case_bool_decide as Hhint; settle_rules.
  - case_bool_decide as Hhint; settle_rules.
Qed.

Lemma inferPersona_listed_age_ranges_witness :
  inferPersona Sample.beforeImage
  = Js.Fulfilled (Update.of_persona Streetwear).
Proof.
  apply (proj1 (inferPersona_listed_age_ranges Sample.beforeImage
                  Sample.profile (Product.Complete Sample.product)
                  eq_refl eq_refl)).
  reflexivity.
Defined.

(** The two premium personas come from their rule alone: the classifier
    answers LuxuryClassic exactly for the age range ["36-45"] with the
    price tier ["Premium"], and Athleisure exactly for the age range
    ["18-35"] with the preferred category ["Athleisure"]. *)
Theorem inferPersona_premium_personas (s : State.t) (p : Profile.t)
    (q : Product.payload) :
  State.profile s = Some p ->
  State.product s = Some q ->
  (inferPersona s = Js.Fulfilled (Update.of_persona LuxuryClassic)
   <-> Profile.age_range p = Some "36-45"
       /\ Profile.price_tier_demographics p = Some "Premium")
  /\ (inferPersona s = Js.Fulfilled (Update.of_persona Athleisure)
      <-> Profile.age_range p = Some "18-35"
          /\ Profile.preferred_category p = Some "Athleisure").
Proof.
  intros Hp Hq. unfold inferPersona. rewrite Hp, Hq.
  split; split.
  - intros Hrun. repeat case_match; simplify_eq; assumption.
  - intros [Hage Hhint]. rewrite Hage. settle_rules.
  - intros Hrun. repeat case_match; simplify_eq; assumption.
  - intros [Hage Hhint]. rewrite Hage. settle_rules.
Qed.

Lemma inferPersona_premium_personas_witness :
  inferPersona Sample.beforeImage
  <> Js.Fulfilled (Update.of_persona LuxuryClassic).
Proof.
  intros Hrun.
  apply (proj1 (inferPersona_premium_personas Sample.beforeImage
                  Sample.profile (Product.Complete Sample.product)
                  eq_refl eq_refl)) in Hrun
    as [Hage _].
  discriminate Hage.
Defined.

(** ** The lower bound of a decimal age range *)

Lemma append_String (c : ascii) (s r : string) :
  String c s ++ r = String c (s ++ r).
Proof. reflexivity. Qed.

Lemma parse_digits_decimal (d : Decimal.uint) :
  forall (rest : string) (b : Z),
    Js.parse_digits 10 (NilEmpty.string_of_uint d ++ rest) (Some b)
    = Js.parse_digits 10 rest
        (Some (b * 10 ^ Z.of_N (DecimalPos.Unsigned.usize d)
               + Z.of_N (DecimalPos.Unsigned.of_lu (Decimal.rev d)))%Z).
Proof.
  induction d as [| d IHd | d IHd | d IHd | d IHd | d IHd | d IHd | d IHd
                  | d IHd | d IHd | d IHd]; intros rest b;
    [simpl; f_equal; f_equal; lia | ..];
    cbn [NilEmpty.string_of_uint]; rewrite append_String;
    cbn [Js.parse_digits];
    (match goal with
     | |- context [Js.digit_value 10 ?c] =>
         let v := eval vm_compute in (Js.digit_value 10 c) in
         change (Js.digit_value 10 c) with v
     end);
    cbv beta iota;
    rewrite IHd; do 2 f_equal;
    (match goal with
     | |- context [Decimal.rev (?D ?x)] =>
         change (Decimal.rev (D x)) with (Decimal.revapp x (D Decimal.Nil));
         rewrite (DecimalPos.Unsigned.of_lu_revapp x (D Decimal.Nil))
     end);
    cbn [DecimalPos.Unsigned.usize DecimalPos.Unsigned.of_lu default from_option id];
    rewrite N2Z.inj_succ, Z.pow_succ_r by lia;
    rewrite N2Z.inj_add, N2Z.inj_mul, N2Z.inj_pow;
    change (Z.of_N 10) with 10%Z;
    rewrite ?N.mul_0_r, ?N.add_0_r;
    simpl Z.of_N; lia.
Qed.

Lemma split_first_decimal (d : Decimal.uint) (rest : string) :
  Js.split_first "-" (NilEmpty.string_of_uint d ++ String "-" rest)
  = NilEmpty.string_of_uint d.
Proof.
  induction d; cbn [NilEmpty.string_of_uint];
    [simpl; reflexivity | ..];
    rewrite append_String; cbn [Js.split_first];
    (match goal with
     | |- context [Ascii.eqb ?c ?c'] =>
         change (Ascii.eqb c c') with false
     end);
    rewrite IHd; reflexivity.
Qed.

Lemma parseInt_digits (d : Decimal.uint) :
  d <> Decimal.Nil ->
  Js.parseInt (NilEmpty.string_of_uint d)
  = Js.parse_digits 10 (NilEmpty.string_of_uint d) None.
Proof.
  intros Hd.
  assert (forall s, match Js.parse_digits 10 s None with
                    | Some n => Some (1 * n)%Z
                    | None => None
                    end = Js.parse_digits 10 s None) as Hone.
  { intros s. destruct (Js.parse_digits 10 s None); [f_equal; lia | reflexivity]. }
  destruct d as [| d | d | d | d | d | d | d | d | d | d];
    [contradiction | ..];
    try (match goal with |- Js.parseInt ?s = _ => exact (Hone s) end).
  destruct d; match goal with |- Js.parseInt ?s = _ => exact (Hone s) end.
Qed.

Lemma to_uint_not_nil (n : N) : N.to_uint n <> Decimal.Nil.
Proof.
  destruct n as [| p]; [discriminate |].
  apply DecimalPos.Unsigned.to_uint_nonnil.
Qed.

Lemma append_empty (s : string) : s ++ "" = s.
Proof. induction s as [| c s IH]; [reflexivity |]. rewrite append_String, IH. reflexivity. Qed.

Lemma parse_digits_start (d : Decimal.uint) :
  d <> Decimal.Nil ->
  Js.parse_digits 10 (NilEmpty.string_of_uint d) None
  = Js.parse_digits 10 (NilEmpty.string_of_uint d) (Some 0%Z).
Proof. destruct d; [contradiction | ..]; reflexivity. Qed.

Lemma parseInt_number (n : N) (rest : string) :
  Js.parseInt (Js.split_first "-" (Js.number_to_string n ++ "-" ++ rest))
  = Some (Z.of_N n).
Proof.
  pose proof (to_uint_not_nil n) as Hnil.
  assert (Js.number_to_string n = NilEmpty.string_of_uint (N.to_uint n)) as ->.
  { unfold Js.number_to_string, NilZero.string_of_uint.
    destruct (N.to_uint n); [contradiction | ..]; reflexivity. }
  change ("-" ++ rest) with (String "-" rest).
  rewrite split_first_decimal, (parseInt_digits _ Hnil),
    (parse_digits_start _ Hnil).
  rewrite <- (append_empty (NilEmpty.string_of_uint (N.to_uint n))).
  rewrite parse_digits_decimal. cbn [Js.parse_digits].
  rewrite Z.mul_0_l, Z.add_0_l, <- DecimalPos.Unsigned.of_uint_alt.
  change (Pos.of_uint (N.to_uint n)) with (N.of_uint (N.to_uint n)).
  rewrite DecimalN.Unsigned.of_to. reflexivity.
Qed.

(** For an age range that starts with a decimal number and a hyphen and is
    none of the four ranges the rules list, the number alone decides:
    below 30 the persona is Streetwear, from 30 on it is Minimalist,
    whatever follows the hyphen and whatever the other hints are. *)
Theorem inferPersona_decimal_lower_bound (s : State.t) (p : Profile.t)
    (q : Product.payload) (n : N) (rest : string) :
  State.profile s = Some p ->
  State.product s = Some q ->
  Profile.age_range p = Some (Js.number_to_string n ++ "-" ++ rest) ->
  Js.number_to_string n ++ "-" ++ rest <> "18-25" ->
  Js.number_to_string n ++ "-" ++ rest <> "26-35" ->
  Js.number_to_string n ++ "-" ++ rest <> "36-45" ->
  Js.number_to_string n ++ "-" ++ rest <> "18-35" ->
  inferPersona s
  = Js.Fulfilled
      (Update.of_persona (if (n <? 30)%N then Streetwear else Minimalist)).
Proof.
  intros Hp Hq Hage H1 H2 H3 H4. unfold inferPersona.
  rewrite Hp, Hq, Hage.
  repeat (let Hrule := fresh "Hrule" in
          case_decide as Hrule;
          [exfalso; destruct Hrule as [Hlisted _]; congruence |]).
  rewrite parseInt_number. unfold Js.number_lt.
  destruct (N.ltb_spec n 30), (Z.ltb_spec (Z.of_N n) 30);
    first [reflexivity | lia].
Qed.

Lemma inferPersona_decimal_lower_bound_witness :
  inferPersona Sample.seniorRequestState
  = Js.Fulfilled (Update.of_persona Minimalist).
Proof.
  apply (inferPersona_decimal_lower_bound Sample.seniorRequestState
           Sample.seniorProfile (Product.Complete Sample.product) 46 "60");
    first [reflexivity | vm_compute; discriminate].
Defined.

(** ** Routing and static edges *)

(** On a step without error the routing function and the static edges
    agree.  When [route] names a node, the node returns an update and the
    merged state holds no ErrorState, then [route] on the merged state
    names the node the static edge leads to, and [end] again after [end].
    For [inferPersona] this needs a state without creative: with one,
    [route] would skip the image step that the edge leads to. *)
Theorem route_agrees_with_edges (env : Env.t) (s : State.t) (u : Update.t) :
  (route s = n_inferPersona -> State.creative s = None) ->
  run_node env (route s) s = Js.Fulfilled u ->
  State.error (merge s u) = None ->
  route (merge s u) = default (route s) (edge (route s)).
Proof.
  intros Hfresh Hnode Hclean.
  destruct (route s) eqn:Hroute; cbn [run_node edge default from_option id] in *.
  - destruct (inferPersona_update s u Hnode) as [msg | p | c].
    + rewrite merge_of_error in Hclean. discriminate.
    + rewrite merge_of_persona in *. simpl in Hclean.
      unfold route; simpl. rewrite Hclean, (Hfresh eq_refl). reflexivity.
    + unfold inferPersona in Hnode. repeat case_match; simplify_eq.
  - destruct (generateImage_update env s u Hnode) as [msg | p | c].
    + rewrite merge_of_error in Hclean. discriminate.
    + unfold generateImage, Js.try_catch, mbind, outcome_bind, Js.bind in Hnode.
      repeat case_match; simplify_eq.
    + apply generateImage_creative in Hnode as (Hpersona & _ & Hcopy).
      rewrite merge_of_creative in *. simpl in Hclean.
      unfold route; simpl. rewrite Hclean, Hpersona, Hcopy. reflexivity.
  - destruct (generateCopy_update env s u Hnode) as [msg | p | c].
    + rewrite merge_of_error in Hclean. discriminate.
    + unfold generateCopy, Js.try_catch, mbind, outcome_bind, Js.bind in Hnode.
      repeat case_match; simplify_eq.
    + apply generateCopy_creative in Hnode as [[p Hp] Hcopy].
      rewrite merge_of_creative in *. simpl in Hclean.
      unfold route; simpl. rewrite Hclean, Hp, Hcopy. reflexivity.
  - exfalso. injection Hnode as <-.
    unfold route in Hroute. unfold merge in Hclean; simpl in Hclean.
    destruct (State.error s); [discriminate Hclean |].
    repeat case_match; discriminate.
  - injection Hnode as <-. rewrite merge_of_state. exact Hroute.
Qed.

Lemma route_agrees_with_edges_witness :
  exists u,
    run_node Sample.allUp n_generateImage Sample.beforeImage = Js.Fulfilled u
    /\ route (merge Sample.beforeImage u) = n_generateCopy.
Proof.
  eexists. split; [vm_compute; reflexivity |].
  apply (route_agrees_with_edges Sample.allUp Sample.beforeImage).
  - intros Hroute. reflexivity.
  - vm_compute. reflexivity.
  - reflexivity.
Defined.

(** ** The image step followed by the copy step *)

(** On a state with profile, a product with its colorways, options and
    persona and without an ErrorState: when the image provider accepts
    the job and the copy provider returns a completion whose first choice
    has a non-empty text, [generateImage] stores a creative with an image
    and an empty copy, [generateCopy], run on the merged state, replaces
    only the copy by that text, and the route answers the state the two
    updates give with 200, the finished creative, the persona and the
    status of the state, and no warning. *)
Theorem image_then_copy_delivers (env : Env.t) (s : State.t)
    (profile : Profile.t) (product : Product.t) (options : Options.t)
    (persona : PersonaType) (key key' : string)
    (response : Http.response (option Bfl.result)) (result : Bfl.result)
    (response' : Http.response (option OpenAI.result))
    (result' : OpenAI.result) (choices : list (option OpenAI.choice))
    (text : string) :
  State.profile s = Some profile ->
  State.product s = Some (Product.Complete product) ->
  State.options s = Some options ->
  State.persona s = Some persona ->
  State.error s = None ->
  Env.BFL_API_KEY env = Some key ->
  Js.truthy key = true ->
  Env.fetch_bfl env
    (imageRequest key (createBFLPrompt persona product (Some profile)))
  = Js.Fulfilled response ->
  Http.ok response = true ->
  Http.json response = Js.Fulfilled (Some result) ->
  Env.OPENAI_API_KEY env = Some key' ->
  Js.truthy key' = true ->
  Env.fetch_openai env
    (copyRequest key' s profile (Product.Complete product) persona)
  = Js.Fulfilled response' ->
  Http.ok response' = true ->
  Http.json response' = Js.Fulfilled (Some result') ->
  OpenAI.choices result' = Some choices ->
  firstChoiceContent choices = Some text ->
  text <> "" ->
  generateImage env s
  = Js.Fulfilled (Update.of_creative (submittedCreative persona result))
  /\ generateCopy env
       (merge s (Update.of_creative (submittedCreative persona result)))
     = Js.Fulfilled
         (Update.of_creative
            (CreativeContent.with_copy (submittedCreative persona result) text))
  /\ Server.answer
       (Js.Fulfilled
          (merge
             (merge s (Update.of_creative (submittedCreative persona result)))
             (Update.of_creative
                (CreativeContent.with_copy (submittedCreative persona result)
                   text))))
     = {| Server.code := 200; Server.success := Some true;
          Server.creative :=
            Some (CreativeContent.with_copy (submittedCreative persona result)
                    text);
          Server.persona := Some persona;
          Server.status := Some (State.status s);
          Server.warning := None; Server.error := None |}.
Proof.
  intros Hprofile Hproduct Hoptions Hpersona Herror Hkey Htruthy Hfetch Hok
    Hjson Hkey' Htruthy' Hfetch' Hok' Hjson' Hchoices Htext Hne.
  split.
  { exact (generateImage_success env s profile product options persona key
             response result Hprofile Hproduct Hoptions Hpersona Hkey Htruthy
             Hfetch Hok Hjson). }
  split.
  - unfold generateCopy. rewrite merge_of_creative. simpl.
    rewrite Hprofile, Hproduct, Hpersona, Hkey', Htruthy'.
    unfold Js.try_catch, mbind, outcome_bind, Js.bind.
    change (copyRequest key' _ profile (Product.Complete product) persona)
      with (copyRequest key' s profile (Product.Complete product) persona).
    rewrite Hfetch', Hok'. simpl. rewrite Hjson', Hchoices, Htext.
    unfold Js.or_else, Js.truthy.
    destruct (String.eqb_spec text ""); [contradiction | reflexivity].
  - rewrite !merge_of_creative. unfold Server.answer. simpl.
    rewrite Herror, Hpersona. reflexivity.
Qed.

Lemma image_then_copy_delivers_witness :
  Server.answer
    (Js.Fulfilled
       (merge
          (merge Sample.beforeImage
             (Update.of_creative Sample.pendingCreative))
          (Update.of_creative
             (CreativeContent.with_copy Sample.pendingCreative
                "Own the street."))))
  = {| Server.code := 200; Server.success := Some true;
       Server.creative :=
         Some (CreativeContent.with_copy Sample.pendingCreative
                 "Own the street.");
       Server.persona := Some Streetwear;
       Server.status := Some "pending";
       Server.warning := None; Server.error := None |}.
Proof.
  exact (proj2 (proj2
    (image_then_copy_delivers Sample.allUp Sample.beforeImage
       Sample.profile Sample.product Sample.options Streetwear
       "bfl-key" "openai-key" _ _ _ _ _ "Own the street."
       eq_refl eq_refl eq_refl eq_refl eq_refl eq_refl eq_refl eq_refl
       eq_refl eq_refl eq_refl eq_refl eq_refl eq_refl eq_refl eq_refl
       eq_refl ltac:(discriminate)))).
Defined.

(** ** The prompt and the persona *)

Lemma append_inv_head (a b c : string) : a ++ b = a ++ c -> b = c.
Proof.
  induction a as [| x a IH]; [auto |].
  rewrite !append_String. intros [= Heq]. exact (IH Heq).
Qed.

(** The persona always shows in the prompt: for the same product and
    profile, two different personas never give the same prompt. *)
Theorem createBFLPrompt_persona_injective (product : Product.t)
    (profile : option Profile.t) (persona persona' : PersonaType) :
  createBFLPrompt persona product profile
  = createBFLPrompt persona' product profile ->
  persona = persona'.
Proof.
  unfold createBFLPrompt. intros Heq.
  apply append_inv_head, append_inv_head in Heq.
  destruct persona, persona'; try reflexivity;
    vm_compute in Heq; discriminate Heq.
Qed.

Lemma createBFLPrompt_persona_injective_witness :
  createBFLPrompt Streetwear Sample.product (Some Sample.profile)
  <> createBFLPrompt Minimalist Sample.product (Some Sample.profile).
Proof.
  intros Heq.
  apply (createBFLPrompt_persona_injective Sample.product
           (Some Sample.profile) Streetwear Minimalist) in Heq.
  discriminate Heq.
Defined.

(** ** Every answer of the poll route *)

(** The poll route answers 200 exactly when some endpoint answers with a
    success status and the body of the first such answer is a JSON
    object.  Every other answer is a 500 with status ['error'] and a
    message; in particular a first success whose body cannot be read ends
    the poll with that error, the later endpoints not being tried. *)
Theorem pollImage_reply_code (env : Env.t) (requestId : string) :
  (Server.poll_code (snd (Server.pollImage env requestId)) = 200%N
   <-> exists r data,
         PollSpec.firstSuccess (Server.pollFetch env)
           (Server.endpoints requestId) = Some r
         /\ Http.json r = Js.Fulfilled (Some data))
  /\ (Server.poll_code (snd (Server.pollImage env requestId)) <> 200%N ->
      Server.poll_code (snd (Server.pollImage env requestId)) = 500%N
      /\ Server.poll_status (snd (Server.pollImage env requestId))
         = Some "error"
      /\ is_Some (Server.poll_error (snd (Server.pollImage env requestId))))
  /\ (forall r e,
        PollSpec.firstSuccess (Server.pollFetch env)
          (Server.endpoints requestId) = Some r ->
        Http.json r = Js.Rejected e ->
        snd (Server.pollImage env requestId)
        = {| Server.poll_code := 500;
             Server.poll_status := Some "error";
             Server.poll_result := None;
             Server.poll_error := Some (Js.message_or_unknown e) |}).
Proof.
  set (fetch := Server.pollFetch env).
  set (urls := Server.endpoints requestId).
  set (vars0 := {| Server.response := None; Server.lastError := None;
                   Server.contacted := [] |}).
  unfold Server.pollImage. cbn [snd]. fold fetch urls vars0.
  destruct (PollSpec.firstSuccess fetch urls) as [r |] eqn:Hfirst.
  - destruct (poll_loop_first_success fetch urls r vars0 Hfirst)
      as [-> Hok].
    rewrite Hok.
    destruct (Http.json r) as [[data |] | e] eqn:Hjson; cbn.
    + split; [split; [eauto | reflexivity] |].
      split; [intros Hcode; contradiction |].
      intros r' e' [= <-]. rewrite Hjson. discriminate.
    + split; [split; [discriminate |] |].
      { intros (r' & data & [= <-] & Hdata). rewrite Hjson in Hdata.
        discriminate. }
      split; [intros _; repeat split; eauto |].
      intros r' e' [= <-]. rewrite Hjson. discriminate.
    + split; [split; [discriminate |] |].
      { intros (r' & data & [= <-] & Hdata). rewrite Hjson in Hdata.
        discriminate. }
      split; [intros _; repeat split; eauto |].
      intros r' e' [= <-]. rewrite Hjson. intros [= <-]. reflexivity.
  - destruct (poll_loop_all_failed fetch urls vars0 Hfirst I)
      as (Hresponse & _ & _).
    assert (Server.poll_code
              (Server.allEndpointsFailed
                 (Server.lastError (Server.poll_loop fetch urls vars0)))
            = 500%N) as Hcode by reflexivity.
    destruct (Server.response (Server.poll_loop fetch urls vars0)) as [r |];
      [rewrite Hresponse |];
      (split; [split; [discriminate | intros (r' & data & Hr' & _); discriminate] |]);
      (split; [intros _; repeat split; eauto |]);
      intros r' e' Hr'; discriminate.
Qed.

Lemma createBFLPrompt_shape_witness :
  createBFLPrompt Streetwear Sample.product (Some Sample.profile)
  = promptFrom (templateFor Sample.product (Some Sample.profile)) Streetwear
      Sample.product.
Proof.
  apply (createBFLPrompt_shape Streetwear Sample.product (Some Sample.profile)).
  vm_compute. reflexivity.
Defined.
